(** * MCP Admin (admin_streamlit/app.py): the RPC client core

    A shallow embedding of the request construction, dispatch, response
    classification, tool-catalog refresh and default-argument synthesis
    of [admin_streamlit/app.py], followed by the properties of that code.

    Conventions.
    - A Python value that came from (or goes into) JSON is a [json].
      A [dict] is an association list in insertion order; a real dict
      never holds a key twice, which [unique_keys] states where a
      property depends on it.
    - A [str] is a [string] whose characters are code points below 256.
    - Python exceptions are values of [exn]; code that can raise lives in
      the monad [M], which threads the [World] and keeps every mutation
      made before an exception was raised, as Python does.
    - What the program cannot decide by itself (the clock, the network,
      the JSON parser of the standard library) is read from an [Env]. *)

From Stdlib Require Import ZArith List String Ascii Bool Lia.
From Stdlib Require Import Floats.SpecFloat.
Import ListNotations.
Local Open Scope string_scope.
Local Open Scope list_scope.
Local Open Scope Z_scope.

(** ** JSON values as Python sees them *)

#[warnings="-register-all"]
Inductive json : Type :=
| JNull                                   (* None *)
| JBool (b : bool)                        (* True / False *)
| JInt (n : Z)                            (* int *)
| JFloat (x : spec_float)                 (* float *)
| JStr (s : string)                       (* str *)
| JArr (items : list json)                (* list *)
| JObj (fields : list (string * json)).   (* dict, insertion order *)

Definition dict := list (string * json).

(** [bool(x)] for a float: only the two zeros are falsy (NaN is truthy). *)
Definition float_truthy (x : spec_float) : bool :=
  match x with
  | S754_zero _ => false
  | _ => true
  end.

Definition str_truthy (s : string) : bool :=
  match s with
  | EmptyString => false
  | String _ _ => true
  end.

(** Python truthiness, as used by [if x] and [a and b]. *)
Definition truthy (v : json) : bool :=
  match v with
  | JNull => false
  | JBool b => b
  | JInt n => negb (n =? 0)
  | JFloat x => float_truthy x
  | JStr s => str_truthy s
  | JArr items => match items with [] => false | _ :: _ => true end
  | JObj fields => match fields with [] => false | _ :: _ => true end
  end.

(** [isinstance(v, dict)] *)
Definition isinstance_dict (v : json) : bool :=
  match v with
  | JObj _ => true
  | _ => false
  end.

(** [v == s] for a string literal [s]. *)
Definition eq_str (v : json) (s : string) : bool :=
  match v with
  | JStr t => String.eqb t s
  | _ => false
  end.

(** Lookup of a key in a dict. *)
Fixpoint dict_lookup (d : dict) (k : string) : option json :=
  match d with
  | [] => None
  | (k', v) :: d' => if String.eqb k' k then Some v else dict_lookup d' k
  end.

(** [d.get(k, default)] on a dict. *)
Definition dict_get (d : dict) (k : string) (default : json) : json :=
  match dict_lookup d k with
  | Some v => v
  | None => default
  end.

(** [d[k] = v]: an existing key keeps its position, a new key goes last. *)
Fixpoint dict_setitem (d : dict) (k : string) (v : json) : dict :=
  match d with
  | [] => [(k, v)]
  | (k', v') :: d' =>
      if String.eqb k' k then (k', v) :: d' else (k', v') :: dict_setitem d' k v
  end.

Fixpoint mem_key (k : string) (ks : list string) : bool :=
  match ks with
  | [] => false
  | k' :: ks' => String.eqb k' k || mem_key k ks'
  end.

(** The keys of a dict are pairwise distinct. *)
Fixpoint unique_keys (d : dict) : bool :=
  match d with
  | [] => true
  | (k, _) :: d' => negb (mem_key k (map fst d')) && unique_keys d'
  end.

(** ** Text helpers *)

(** [c.isspace()] for a code point below 256. *)
Definition isspace (c : ascii) : bool :=
  let n := nat_of_ascii c in
  ((9 <=? n)%nat && (n <=? 13)%nat)
  || ((28 <=? n)%nat && (n <=? 32)%nat)
  || (n =? 133)%nat
  || (n =? 160)%nat.

Fixpoint lstrip (s : string) : string :=
  match s with
  | EmptyString => EmptyString
  | String c s' => if isspace c then lstrip s' else s
  end.

Fixpoint rstrip (s : string) : string :=
  match s with
  | EmptyString => EmptyString
  | String c s' =>
      match rstrip s' with
      | EmptyString => if isspace c then EmptyString else String c EmptyString
      | t => String c t
      end
  end.

(** [s.strip()] *)
Definition strip (s : string) : string := rstrip (lstrip s).

(** ** Exceptions and outcomes *)

Inductive exn : Type :=
| RequestException (msg : string)   (* anything [requests.post] raises *)
| HTTPError (status : Z)            (* [raise_for_status] *)
| JSONDecodeError (msg : string)    (* [r.json()], [json.loads] *)
| AttributeError (msg : string)     (* [.get] / [.items] on a non-dict *)
| TypeError (msg : string).         (* [len] of an unsized value *)

Inductive outcome (A : Type) : Type :=
| Return (a : A)
| Raise (e : exn).
Arguments Return {A} a.
Arguments Raise {A} e.

(** ** The HTTP response object of the Requests library *)

Record Response : Type := mkResponse {
  status_code : Z;            (* r.status_code *)
  text : string;              (* r.text *)
  json_body : outcome json    (* r.json(): the decoded body, or the exception *)
}.

(** [Response.raise_for_status] of Requests raises [HTTPError] exactly for
    the client and server error ranges, 400..499 and 500..599. *)
Definition is_http_error (status : Z) : bool :=
  ((400 <=? status) && (status <? 500)) || ((500 <=? status) && (status <? 600)).

(** [r.ok] of Requests: [True] unless [raise_for_status] would raise. *)
Definition ok (r : Response) : bool := negb (is_http_error (status_code r)).

(** ** Session state, effects and environment *)

(** One element of [st.session_state.history] (lines 42-48). *)
Record HistoryEntry : Type := mkEntry {
  entry_time : string;
  entry_tool : string;
  entry_request : json;
  entry_response : json;
  entry_status_code : Z
}.

(** One invocation of [requests.post(url, headers=, json=, timeout=)]. *)
Record PostCall : Type := mkPost {
  post_url : string;
  post_headers : list (string * string);
  post_json : json;
  post_timeout : Z
}.

(** What the page renders. Each constructor stands for one Streamlit call
    and carries the values interpolated into its message. *)
Inductive widget : Type :=
| st_success_call (tool_name : string)           (* line 52 *)
| st_json (body : json)                          (* line 53 *)
| st_error_http (tool_name : string) (status : Z) (* line 55 *)
| st_write (body : json)                         (* line 56 *)
| st_error_call (tool_name : string) (e : exn)   (* line 58 *)
| st_success_list (count : nat)                  (* line 152 *)
| st_write_heading                               (* line 153 *)
| st_markdown_tool (name description : json)     (* line 155 *)
| st_error_list (e : exn)                        (* line 157 *)
| st_write_text (s : string)                     (* line 158 *)
| st_error_args (e : exn).                       (* line 193 *)

Record World : Type := mkWorld {
  history : list HistoryEntry;   (* st.session_state.history, newest first *)
  tools : json;                  (* st.session_state.tools *)
  posts : list PostCall;         (* every requests.post made, oldest first *)
  ui : list widget;              (* everything rendered, oldest first *)
  local_r : option Response      (* the script variable [r], when bound *)
}.

Record Env : Type := mkEnv {
  default_url : string;                       (* sidebar: MCP URL *)
  default_token : string;                     (* sidebar: bearer token *)
  now_timestamp : spec_float;                 (* datetime.now().timestamp() *)
  now_utc_iso : string;                       (* datetime.now(timezone.utc).isoformat() *)
  network : PostCall -> outcome Response;     (* what requests.post meets *)
  json_loads : string -> outcome json         (* json.loads *)
}.

(** Lines 15-19: a fresh session. *)
Definition initial_world : World :=
  {| history := []; tools := JArr []; posts := []; ui := []; local_r := None |}.

(** ** The monad of effectful code *)

Definition M (A : Type) : Type := World -> outcome A * World.

Definition ret {A} (a : A) : M A := fun w => (Return a, w).

Definition raise {A} (e : exn) : M A := fun w => (Raise e, w).

Definition bind {A B} (m : M A) (k : A -> M B) : M B :=
  fun w =>
    match m w with
    | (Return a, w') => k a w'
    | (Raise e, w') => (Raise e, w')
    end.

(** [try: body / except Exception as e: handler e]. The world the handler
    starts from is the one the body left behind. *)
Definition try_except {A} (body : M A) (handler : exn -> M A) : M A :=
  fun w =>
    match body w with
    | (Return a, w') => (Return a, w')
    | (Raise e, w') => handler e w'
    end.

Definition lift {A} (o : outcome A) : M A := fun w => (o, w).

Declare Scope py_scope.
Delimit Scope py_scope with py.
Notation "x <- m ;; k" := (bind m (fun x => k))
  (at level 61, m at next level, right associativity) : py_scope.
Notation "m ;; k" := (bind m (fun _ => k))
  (at level 61, right associativity) : py_scope.
Local Open Scope py_scope.

Definition render (x : widget) : M unit :=
  fun w =>
    (Return tt,
     {| history := history w; tools := tools w; posts := posts w;
        ui := ui w ++ [x]; local_r := local_r w |}).

(** [st.session_state.history.insert(0, entry)] *)
Definition history_insert0 (entry : HistoryEntry) : M unit :=
  fun w =>
    (Return tt,
     {| history := entry :: history w; tools := tools w; posts := posts w;
        ui := ui w; local_r := local_r w |}).

(** [st.session_state.tools = v] *)
Definition set_tools (v : json) : M unit :=
  fun w =>
    (Return tt,
     {| history := history w; tools := v; posts := posts w;
        ui := ui w; local_r := local_r w |}).

(** Binding or unbinding the script variable [r]. *)
Definition set_local_r (r : option Response) : M unit :=
  fun w =>
    (Return tt,
     {| history := history w; tools := tools w; posts := posts w;
        ui := ui w; local_r := r |}).

Definition get_local_r : M (option Response) := fun w => (Return (local_r w), w).

(** ** Python built-ins on JSON values *)

(** [v.get(k, default)]: only a dict has [get]. *)
Definition py_get (v : json) (k : string) (default : json) : M json :=
  match v with
  | JObj d => ret (dict_get d k default)
  | _ => raise (AttributeError "get")
  end.

(** [v.items()]: only a dict has [items]. *)
Definition py_items (v : json) : M (list (string * json)) :=
  match v with
  | JObj d => ret d
  | _ => raise (AttributeError "items")
  end.

(** [len(v)] *)
Definition py_len (v : json) : M nat :=
  match v with
  | JArr items => ret (List.length items)
  | JObj d => ret (List.length d)
  | JStr s => ret (String.length s)
  | _ => raise (TypeError "len")
  end.

Fixpoint chars (s : string) : list json :=
  match s with
  | EmptyString => []
  | String c s' => JStr (String c EmptyString) :: chars s'
  end.

(** The elements [for t in v] visits: the items of a list, the keys of a
    dict, the characters of a str. *)
Definition py_iter (v : json) : M (list json) :=
  match v with
  | JArr items => ret items
  | JObj d => ret (map (fun kv => JStr (fst kv)) d)
  | JStr s => ret (chars s)
  | _ => raise (TypeError "iter")
  end.

(** [for x in xs: body x] *)
Fixpoint for_each {A} (xs : list A) (body : A -> M unit) : M unit :=
  match xs with
  | [] => ret tt
  | x :: xs' => body x ;; for_each xs' body
  end.

(** ** The program *)

Section Program.

Variable env : Env.

(** Lines 21-25. *)
Definition headers : list (string * string) :=
  ("Content-Type", "application/json")
  :: (if str_truthy (default_token env)
      then [("Authorization", ("Bearer " ++ default_token env)%string)]
      else []).

(** [requests.post(url, headers=, json=, timeout=)]: the call is made (and
    noted in [posts]), then the network answers with a response or the
    call raises. *)
Definition requests_post (url : string) (hs : list (string * string))
    (body : json) (timeout : Z) : M Response :=
  fun w =>
    let call := mkPost url hs body timeout in
    (network env call,
     {| history := history w; tools := tools w; posts := posts w ++ [call];
        ui := ui w; local_r := local_r w |}).

(** [r.raise_for_status()] *)
Definition raise_for_status (r : Response) : M unit :=
  if is_http_error (status_code r) then raise (HTTPError (status_code r))
  else ret tt.

(** [r.json()] *)
Definition response_json (r : Response) : M json := lift (json_body r).

(** Lines 29-34: the [tools/call] envelope. *)
Definition call_payload (tool_name : string) (args : json) : json :=
  JObj [ ("jsonrpc", JStr "2.0");
         ("id", JFloat (now_timestamp env));
         ("method", JStr "tools/call");
         ("params", JObj [("name", JStr tool_name); ("arguments", args)]) ].

(** Line 145: the [tools/list] envelope. *)
Definition list_payload : json :=
  JObj [ ("jsonrpc", JStr "2.0"); ("id", JInt 1); ("method", JStr "tools/list") ].

(** Line 40: the body kept when [r.json()] raises. *)
Definition fallback_body (r : Response) : json :=
  JObj [("raw_text", JStr (text r)); ("status_code", JInt (status_code r))].

(** Line 51: [r.ok and isinstance(resp, dict) and resp.get("result")]. *)
Definition is_success (r : Response) (resp : json) : bool :=
  ok r
  && isinstance_dict resp
  && match resp with
     | JObj d => truthy (dict_get d "result" JNull)
     | _ => false
     end.

(** Lines 28-58. *)
Definition call_mcp_tool (tool_name : string) (args : json) : M unit :=
  let payload := call_payload tool_name args in
  try_except
    (r <- requests_post (default_url env) headers payload 60 ;;
     resp <- try_except (response_json r) (fun _ => ret (fallback_body r)) ;;
     let entry :=
       {| entry_time := now_utc_iso env;
          entry_tool := tool_name;
          entry_request := payload;
          entry_response := resp;
          entry_status_code := status_code r |} in
     history_insert0 entry ;;
     if is_success r resp then
       render (st_success_call tool_name) ;;
       render (st_json resp)
     else
       render (st_error_http tool_name (status_code r)) ;;
       render (st_write resp))
    (fun e => render (st_error_call tool_name e)).

(** Lines 144-158: the handler of the "tools/list" button. The script
    variable [r] is unbound when the handler starts. *)
Definition tools_list_button : M unit :=
  set_local_r None ;;
  let payload := list_payload in
  try_except
    (r <- requests_post (default_url env) headers payload 20 ;;
     set_local_r (Some r) ;;
     raise_for_status r ;;
     resp <- response_json r ;;
     result <- py_get resp "result" (JObj []) ;;
     tools <- py_get result "tools" (JArr []) ;;
     set_tools tools ;;
     n <- py_len tools ;;
     render (st_success_list n) ;;
     render st_write_heading ;;
     ts <- py_iter tools ;;
     for_each ts (fun t =>
       name <- py_get t "name" JNull ;;
       description <- py_get t "description" JNull ;;
       render (st_markdown_tool name description)))
    (fun e =>
       render (st_error_list e) ;;
       r <- get_local_r ;;
       render (st_write_text
                 match r with
                 | Some r => text r
                 | None => EmptyString
                 end)).

(** Lines 175-184: the placeholder for one property declaration [v]. *)
Definition placeholder (v : json) : M json :=
  ty <- py_get v "type" JNull ;;
  ret (if eq_str ty "string" then JStr EmptyString
       else if eq_str ty "number" then JInt 0
       else if eq_str ty "boolean" then JBool false
       else if eq_str ty "array" then JArr []
       else JNull).

(** Lines 174-184: the loop, from the mapping built so far. *)
Fixpoint synthesize_loop (items : list (string * json)) (default_args : dict)
    : M dict :=
  match items with
  | [] => ret default_args
  | (k, v) :: items' =>
      p <- placeholder v ;;
      synthesize_loop items' (dict_setitem default_args k p)
  end.

(** Lines 171-184, from the input schema on. *)
Definition synthesize (inputSchema : json) : M dict :=
  props <- py_get inputSchema "properties" (JObj []) ;;
  items <- py_items props ;;
  synthesize_loop items [].

(** Lines 171-184, from the selected tool descriptor. *)
Definition default_args_of (tool : json) : M dict :=
  inputSchema <- py_get tool "inputSchema" (JObj []) ;;
  synthesize inputSchema.

(** Lines 188-193: the handler of the "tools/call" button. *)
Definition tools_call_button (selected : string) (args_text : string) : M unit :=
  try_except
    (parsed_args <- (if str_truthy (strip args_text)
                     then lift (json_loads env args_text)
                     else ret (JObj [])) ;;
     call_mcp_tool selected parsed_args)
    (fun e => render (st_error_args e)).

End Program.

(** ** The three-way classification of a response (section 4.3 of the
    design), read off line 51 *)

Inductive classification : Type := Success | ProtocolError | TransportFailure.

Definition classify (r : Response) (resp : json) : classification :=
  if is_success r resp then Success else ProtocolError.

(** The body is an object that holds a truthy [result]. *)
Definition has_truthy_result (resp : json) : bool :=
  match resp with
  | JObj d =>
      match dict_lookup d "result" with
      | Some v => truthy v
      | None => false
      end
  | _ => false
  end.

(** The [id] a request envelope carries. *)
Definition request_id (payload : json) : option json :=
  match payload with
  | JObj d => dict_lookup d "id"
  | _ => None
  end.

(** The declared type string of a property declaration, when it has one. *)
Definition declared_type (v : json) : option string :=
  match v with
  | JObj d =>
      match dict_lookup d "type" with
      | Some (JStr s) => Some s
      | _ => None
      end
  | _ => None
  end.

(** The placeholder table of the design (section 4.5), by type string. *)
Definition placeholder_by_type (ty : option string) : json :=
  match ty with
  | Some s =>
      if String.eqb s "string" then JStr EmptyString
      else if String.eqb s "number" then JInt 0
      else if String.eqb s "boolean" then JBool false
      else if String.eqb s "array" then JArr []
      else JNull
  | None => JNull
  end.

(** The request [call_mcp_tool] posts. *)
Definition call_post (env : Env) (tool_name : string) (args : json) : PostCall :=
  mkPost (default_url env) (headers env) (call_payload env tool_name args) 60.

(** The request the "tools/list" button posts. *)
Definition list_post (env : Env) : PostCall :=
  mkPost (default_url env) (headers env) list_payload 20.

(** The body [call_mcp_tool] goes on with: the decoded one, or the fallback. *)
Definition body_of (r : Response) : json :=
  match json_body r with
  | Return j => j
  | Raise _ => fallback_body r
  end.

(** The catalog a response brings, when the "tools/list" handler gets as
    far as line 151 with it. *)
Definition listed_tools (r : Response) : option json :=
  if is_http_error (status_code r) then None
  else
    match json_body r with
    | Return (JObj d) =>
        match dict_get d "result" (JObj []) with
        | JObj result => Some (dict_get result "tools" (JArr []))
        | _ => None
        end
    | _ => None
    end.


(** What [call_mcp_tool] renders for a response, by classification. *)
Definition rendering (tool_name : string) (r : Response) : list widget :=
  match classify r (body_of r) with
  | Success => [st_success_call tool_name; st_json (body_of r)]
  | _ => [st_error_http tool_name (status_code r); st_write (body_of r)]
  end.

(** The mapping the design asks for: every property, in order, with the
    placeholder of its declared type. *)
Definition placeholders (props : dict) : dict :=
  map (fun kv => (fst kv, placeholder_by_type (declared_type (snd kv)))) props.

(** The ids of the requests sent so far, oldest first. *)
Definition sent_ids (w : World) : list (option json) :=
  map (fun p => request_id (post_json p)) (posts w).

(** [keeps f m]: running [m] never changes the component [f] of the world,
    whether [m] returns or raises. *)
Definition keeps {A X : Type} (f : World -> X) (m : M A) : Prop :=
  forall w, f (snd (m w)) = f w.

(** ** The preset panel (lines 63-141) *)

(** The messages of the preset panel. They are not among the [widget]s of
    [ui]: a preset handler hands back the one it shows, and [None] when it
    called the tool instead. *)
Inductive notice : Type :=
| st_warning_kv_get     (* line 75 *)
| st_warning_kv_set     (* line 85 *)
| st_warning_prompt     (* line 112 *)
| st_error_confirm      (* line 126 *)
| st_warning_worker.    (* line 136 *)

(** Lines 66-67. *)
Definition system_prompt_button (env : Env) : M (option notice) :=
  call_mcp_tool env "getSystemPrompt" (JObj []) ;; ret None.

(** Lines 71-75. *)
Definition get_kv_button (env : Env) (kv_key_get : string) : M (option notice) :=
  if str_truthy kv_key_get then
    call_mcp_tool env "getKVFlag" (JObj [("key", JStr kv_key_get)]) ;; ret None
  else ret (Some st_warning_kv_get).

(** Lines 81-85. *)
Definition set_kv_button (env : Env) (kv_key_set kv_value_set : string)
    : M (option notice) :=
  if str_truthy kv_key_set && str_truthy kv_value_set then
    call_mcp_tool env "setKVFlag"
      (JObj [("key", JStr kv_key_set); ("value", JStr kv_value_set)]) ;;
    ret None
  else ret (Some st_warning_kv_set).

(** Lines 92-98. *)
Definition preset_models : list string :=
  [ "@cf/meta/llama-2-7b-chat-fp16";
    "@cf/meta/llama-2-13b-chat-fp16";
    "@cf/baai/bge-large-en-v1.5";
    "openai/gpt-4o-mini";
    "openai/gpt-4o" ].

(** Line 99: the options of the model select box. *)
Definition model_options : list string := "(use custom below)" :: preset_models.

(** Line 103: a custom model overrides the preset; [None] is Python's. *)
Definition model_to_use (selected_model custom_model : string) : option string :=
  if str_truthy custom_model && str_truthy (strip custom_model)
  then Some (strip custom_model)
  else if String.eqb selected_model "(use custom below)" then None
       else Some selected_model.

(** Lines 107-109: the arguments of [aiChat]. *)
Definition ai_args (ai_prompt : string) (model : option string) : dict :=
  let args := [("prompt", JStr ai_prompt)] in
  match model with
  | Some m => if str_truthy m then dict_setitem args "model" (JStr m) else args
  | None => args
  end.

(** Lines 105-112. *)
Definition ai_button (env : Env) (ai_prompt selected_model custom_model : string)
    : M (option notice) :=
  if str_truthy ai_prompt then
    call_mcp_tool env "aiChat"
      (JObj (ai_args ai_prompt (model_to_use selected_model custom_model))) ;;
    ret None
  else ret (Some st_warning_prompt).

(** Lines 128-133. *)
Definition worker_params (worker_name worker_code : string)
    (dry_run confirm_deploy : bool) : json :=
  JObj [ ("script_name", JStr worker_name);
         ("script_code", JStr worker_code);
         ("dryRun", JBool dry_run);
         ("confirm", JBool confirm_deploy) ].

(** Lines 123-136. *)
Definition worker_button (env : Env) (worker_name worker_code : string)
    (dry_run confirm_deploy : bool) : M (option notice) :=
  if str_truthy worker_name && str_truthy worker_code then
    if negb dry_run && negb confirm_deploy then ret (Some st_error_confirm)
    else
      call_mcp_tool env "createWorkerFromCode"
        (worker_params worker_name worker_code dry_run confirm_deploy) ;;
      ret None
  else ret (Some st_warning_worker).

(** Lines 140-141. *)
Definition cron_button (env : Env) : M (option notice) :=
  call_mcp_tool env "listCronTriggers" (JObj []) ;; ret None.

(** ** The history panel (lines 196-206) *)

Inductive panel_item : Type :=
| st_expander (time tool : string) (status : Z) (request response : json)
                                    (* lines 200-204 *)
| st_info_no_history.               (* line 206 *)

(** Lines 198-206: the 20 newest entries, or a hint when there is none. *)
Definition history_panel (h : list HistoryEntry) : list panel_item :=
  match h with
  | [] => [st_info_no_history]
  | _ :: _ =>
      map (fun e => st_expander (entry_time e) (entry_tool e)
                      (entry_status_code e) (entry_request e) (entry_response e))
          (firstn 20 h)
  end.

(** ** A session: one button per rerun of the script *)

Inductive action : Type :=
| ShowSystemPrompt
| GetKV (kv_key_get : string)
| SetKV (kv_key_set kv_value_set : string)
| AiChat (ai_prompt selected_model custom_model : string)
| DeployWorker (worker_name worker_code : string) (dry_run confirm_deploy : bool)
| ListCron
| ListTools
| CallTool (selected args_text : string).

(** The handler of the button pressed. A rerun of the script fires one
    button at most. The selection of a tool (lines 160-169) and the
    argument editor (line 186), which the script evaluates before it
    reaches the "tools/call" button, are not part of a press: a session
    here may press that button in more situations than the page offers
    it. *)
Definition press (env : Env) (a : action) : M unit :=
  match a with
  | ShowSystemPrompt => system_prompt_button env ;; ret tt
  | GetKV k => get_kv_button env k ;; ret tt
  | SetKV k v => set_kv_button env k v ;; ret tt
  | AiChat p s c => ai_button env p s c ;; ret tt
  | DeployWorker n c d f => worker_button env n c d f ;; ret tt
  | ListCron => cron_button env ;; ret tt
  | ListTools => tools_list_button env
  | CallTool s t => tools_call_button env s t
  end.

(** The world after a sequence of reruns, each with its own environment. *)
Fixpoint run_session (steps : list (Env * action)) (w : World) : World :=
  match steps with
  | [] => w
  | (env, a) :: steps' => run_session steps' (snd (press env a w))
  end.

(** The tool call a button press makes, if it makes one. *)
Definition call_of (env : Env) (a : action) : option (string * json) :=
  match a with
  | ShowSystemPrompt => Some ("getSystemPrompt", JObj [])
  | GetKV k =>
      if str_truthy k then Some ("getKVFlag", JObj [("key", JStr k)]) else None
  | SetKV k v =>
      if str_truthy k && str_truthy v
      then Some ("setKVFlag", JObj [("key", JStr k); ("value", JStr v)])
      else None
  | AiChat p s c =>
      if str_truthy p then Some ("aiChat", JObj (ai_args p (model_to_use s c)))
      else None
  | DeployWorker n c d f =>
      if str_truthy n && str_truthy c && negb (negb d && negb f)
      then Some ("createWorkerFromCode", worker_params n c d f)
      else None
  | ListCron => Some ("listCronTriggers", JObj [])
  | ListTools => None
  | CallTool s t =>
      if str_truthy (strip t)
      then match json_loads env t with
           | Return v => Some (s, v)
           | Raise _ => None
           end
      else Some (s, JObj [])
  end.

(** A history entry whose request is the [tools/call] envelope of its tool. *)
Definition entry_wf (e : HistoryEntry) : Prop :=
  exists (ts : spec_float) (args : json),
    entry_request e =
    JObj [ ("jsonrpc", JStr "2.0"); ("id", JFloat ts);
           ("method", JStr "tools/call");
           ("params", JObj [("name", JStr (entry_tool e)); ("arguments", args)]) ].

(** The declarations of a schema can all be read: it is an object, its
    [properties] (when present) is an object, and so is each declaration. *)
Definition schema_readable (inputSchema : json) : bool :=
  match inputSchema with
  | JObj d =>
      match dict_get d "properties" (JObj []) with
      | JObj props => forallb isinstance_dict (map snd props)
      | _ => false
      end
  | _ => false
  end.

(** [len] is defined on the value. *)
Definition sized (v : json) : bool :=
  match v with
  | JArr _ | JObj _ | JStr _ => true
  | _ => false
  end.

(** The line rendered for one tool of a listing (line 155). *)
Definition tool_line (t : json) : widget :=
  match t with
  | JObj d => st_markdown_tool (dict_get d "name" JNull) (dict_get d "description" JNull)
  | _ => st_markdown_tool JNull JNull
  end.

(** ** Pieces of the "tools/list" handler, for stating what it does *)

(** The world once [call] was posted and [r] bound (or left unbound). *)
Definition sent (w : World) (call : PostCall) (r : option Response) : World :=
  {| history := history w; tools := tools w; posts := posts w ++ [call];
     ui := ui w; local_r := r |}.

(** The world with [xs] rendered after what was there. *)
Definition shown (w : World) (xs : list widget) : World :=
  {| history := history w; tools := tools w; posts := posts w;
     ui := ui w ++ xs; local_r := local_r w |}.

(** The world with the catalog replaced. *)
Definition with_tools (w : World) (v : json) : World :=
  {| history := history w; tools := v; posts := posts w;
     ui := ui w; local_r := local_r w |}.

(** Lines 148-150 on a response: the [tools] value read from it, or the
    exception raised on the way. *)
Definition listing_of (r : Response) : outcome json :=
  if is_http_error (status_code r) then Raise (HTTPError (status_code r))
  else
    match json_body r with
    | Raise e => Raise e
    | Return (JObj d) =>
        match dict_get d "result" (JObj []) with
        | JObj result => Return (dict_get result "tools" (JArr []))
        | _ => Raise (AttributeError "get")
        end
    | Return _ => Raise (AttributeError "get")
    end.

(** Lines 152-155. *)
Definition listing_rest (tools : json) : M unit :=
  n <- py_len tools ;;
  render (st_success_list n) ;;
  render st_write_heading ;;
  ts <- py_iter tools ;;
  for_each ts (fun t =>
    name <- py_get t "name" JNull ;;
    description <- py_get t "description" JNull ;;
    render (st_markdown_tool name description)).

(** Lines 156-158. *)
Definition listing_except (e : exn) : M unit :=
  render (st_error_list e) ;;
  r <- get_local_r ;;
  render (st_write_text
            match r with
            | Some r => text r
            | None => EmptyString
            end).

(** What [for t in v] visits, for a sized value. *)
Definition elements (v : json) : list json :=
  match v with
  | JArr items => items
  | JObj d => map (fun kv => JStr (fst kv)) d
  | JStr s => chars s
  | _ => []
  end.

(** The elements before the first one that is not a dict. *)
Fixpoint leading_dicts (ts : list json) : list json :=
  match ts with
  | [] => []
  | t :: ts' => if isinstance_dict t then t :: leading_dicts ts' else []
  end.

(** The text shown under an error of the listing. *)
Definition raw_text (r : option Response) : string :=
  match r with
  | Some r => text r
  | None => EmptyString
  end.

(** What the listing renders once the catalog was assigned [v]. *)
Definition listing_widgets (r : Response) (v : json) : list widget :=
  if sized v then
    [st_success_list (List.length (elements v)); st_write_heading]
    ++ map tool_line (leading_dicts (elements v))
    ++ (if forallb isinstance_dict (elements v) then []
        else [st_error_list (AttributeError "get"); st_write_text (text r)])
  else [st_error_list (TypeError "len"); st_write_text (text r)].

(** ** What a press sends and records, for stating what a session does *)

Definition opt_list {A : Type} (o : option A) : list A :=
  match o with
  | Some a => [a]
  | None => []
  end.

(** The request a press posts, if it posts one. *)
Definition request_of (env : Env) (a : action) : option PostCall :=
  match a with
  | ListTools => Some (list_post env)
  | _ =>
      match call_of env a with
      | Some (tool_name, args) => Some (call_post env tool_name args)
      | None => None
      end
  end.

(** The entry a press records, if it records one: the press makes a tool
    call and the transport comes back with a response. *)
Definition entry_of (env : Env) (a : action) : option HistoryEntry :=
  match call_of env a with
  | Some (tool_name, args) =>
      match network env (call_post env tool_name args) with
      | Return r =>
          Some (mkEntry (now_utc_iso env) tool_name
                  (call_payload env tool_name args) (body_of r) (status_code r))
      | Raise _ => None
      end
  | None => None
  end.

Definition requests_of (steps : list (Env * action)) : list PostCall :=
  flat_map (fun s => opt_list (request_of (fst s) (snd s))) steps.

Definition entries_of (steps : list (Env * action)) : list HistoryEntry :=
  flat_map (fun s => opt_list (entry_of (fst s) (snd s))) steps.

(** The expander of one entry (lines 200-204). *)
Definition expander_of (e : HistoryEntry) : panel_item :=
  st_expander (entry_time e) (entry_tool e) (entry_status_code e)
              (entry_request e) (entry_response e).

Definition is_listing (a : action) : bool :=
  match a with
  | ListTools => true
  | _ => false
  end.

(** ** Environments and values used in the examples *)

Module Examples.

(** A clock reading: 1.75e9 seconds, as 1750000000 * 2^0. *)
Definition t0 : spec_float := S754_finite false 1750000000 0.

(** [json.loads] on the texts of the examples: blank text is rejected. *)
Definition loads (s : string) : outcome json :=
  if String.eqb s "{}" then Return (JObj [])
  else Raise (JSONDecodeError "Expecting value").

Definition env_of (net : PostCall -> outcome Response) : Env :=
  {| default_url := "http://localhost:8787/mcp";
     default_token := EmptyString;
     now_timestamp := t0;
     now_utc_iso := "2025-06-15T15:06:40+00:00";
     network := net;
     json_loads := loads |}.

(** The server cannot be reached. *)
Definition env_down : Env :=
  env_of (fun _ => Raise (RequestException "Connection refused")).

Definition respond (status : Z) (raw : string) (body : outcome json) : Env :=
  env_of (fun _ => Return (mkResponse status raw body)).

Definition result_body : json :=
  JObj [("jsonrpc", JStr "2.0"); ("id", JInt 1);
        ("result", JObj [("ok", JBool true)])].

Definition error_body : json :=
  JObj [("jsonrpc", JStr "2.0"); ("id", JInt 1);
        ("error", JObj [("code", JInt (-32601));
                        ("message", JStr "Method not found")])].

Definition tool (name : string) : json :=
  JObj [("name", JStr name); ("description", JStr "a tool");
        ("inputSchema", JObj [("properties", JObj [])])].

Definition three_tools : json :=
  JArr [tool "getSystemPrompt"; tool "getKVFlag"; tool "setKVFlag"].

Definition with_catalog (catalog : json) : World :=
  {| history := []; tools := catalog; posts := []; ui := []; local_r := None |}.

(** The schema of section 8 of the design. *)
Definition props8 : dict :=
  [("a", JObj [("type", JStr "string")]);
   ("b", JObj [("type", JStr "number")]);
   ("c", JObj [("type", JStr "boolean")]);
   ("d", JObj [("type", JStr "array")]);
   ("e", JObj [])].

Definition schema8 : json := JObj [("properties", JObj props8)].

End Examples.

(** ** Ids as numbers, for stating when two requests can be told apart *)

(** The value is a binary64 float in the canonical form of IEEE 754, the
    only form a Python [float] has. *)
Definition is_binary64 (x : spec_float) : bool := valid_binary 53 1024 x.

(** [x == y] on floats. *)
Definition float_eq (x y : spec_float) : bool := SFeqb x y.

(** Two ids are numbers of one kind that [==] tells apart. *)
Definition ids_differ (a b : option json) : bool :=
  match a, b with
  | Some (JFloat x), Some (JFloat y) => negb (float_eq x y)
  | Some (JInt m), Some (JInt n) => negb (m =? n)
  | _, _ => false
  end.

(** The envelope is one of [tools/call]. *)
Definition is_tools_call (payload : json) : bool :=
  match payload with
  | JObj d => eq_str (dict_get d "method" JNull) "tools/call"
  | _ => false
  end.

(** The ids of the [tools/call] requests sent so far, oldest first. *)
Definition call_ids (w : World) : list (option json) :=
  map (fun p => request_id (post_json p))
      (filter (fun p => is_tools_call (post_json p)) (posts w)).

(** The clock readings of the presses of a session that make a tool call. *)
Definition call_clocks (steps : list (Env * action)) : list spec_float :=
  flat_map (fun s => match call_of (fst s) (snd s) with
                     | Some _ => [now_timestamp (fst s)]
                     | None => []
                     end) steps.

(** ** Two clock readings used in the examples *)

Module Clocks.

(** 1750000000.0 and 1750000060.0 as binary64: 53 bits of mantissa and the
    exponent -22. *)
Definition t1 : spec_float := S754_finite false 7340032000000000 (-22).
Definition t2 : spec_float := S754_finite false 7340032251658240 (-22).

(** The server answers every request; the clock reads [t]. *)
Definition at_clock (t : spec_float) : Env :=
  {| default_url := "http://localhost:8787/mcp";
     default_token := EmptyString;
     now_timestamp := t;
     now_utc_iso := "2025-06-15T15:06:40+00:00";
     network := fun _ => Return (mkResponse 200 "ok" (Return Examples.result_body));
     json_loads := Examples.loads |}.

(** Two tool calls a minute apart, with a listing in between. *)
Definition steps : list (Env * action) :=
  [ (at_clock t1, ShowSystemPrompt);
    (at_clock t1, ListTools);
    (at_clock t2, ListCron) ].

End Clocks.

(** ** A session and a few responses used in the examples *)

Module Cases.

Definition two_tools : json := JArr [Examples.tool "echo"; Examples.tool "aiChat"].

(** The answer of a server to [tools/list]. *)
Definition listing_body (listing : json) : json :=
  JObj [("jsonrpc", JStr "2.0"); ("id", JInt 1);
        ("result", JObj [("tools", listing)])].

Definition listing_env (listing : json) : Env :=
  Examples.respond 200 "ok" (Return (listing_body listing)).

Definition up : Env := Examples.respond 200 "ok" (Return Examples.result_body).

(** Three presses: a preset that is answered, a preset while the server is
    down, and a call of a listed tool with [{}] as its arguments. *)
Definition steps : list (Env * action) :=
  [ (up, ShowSystemPrompt);
    (Examples.env_down, GetKV "SYSTEM_PROMPT");
    (up, CallTool "getKVFlag" "{}") ].

End Cases.

(** ** Properties *)

(** *** Framing: what a computation leaves alone *)

Section Frame.

Context {X : Type} (f : World -> X).

Lemma keeps_ret {A} (a : A) : keeps f (ret a).
Proof. intros w. reflexivity. Qed.

Lemma keeps_raise {A} (e : exn) : keeps f (@raise A e).
Proof. intros w. reflexivity. Qed.

Lemma keeps_lift {A} (o : outcome A) : keeps f (lift o).
Proof. intros w. reflexivity. Qed.

Lemma keeps_bind {A B} (m : M A) (k : A -> M B) :
  keeps f m -> (forall a, keeps f (k a)) -> keeps f (bind m k).
Proof.
  intros Hm Hk w. unfold bind. specialize (Hm w).
  destruct (m w) as [[a | e] w1]; cbn in *.
  - rewrite Hk. exact Hm.
  - exact Hm.
Qed.

Lemma keeps_try_except {A} (body : M A) (handler : exn -> M A) :
  keeps f body -> (forall e, keeps f (handler e)) ->
  keeps f (try_except body handler).
Proof.
  intros Hb Hh w. unfold try_except. specialize (Hb w).
  destruct (body w) as [[a | e] w1]; cbn in *.
  - exact Hb.
  - rewrite Hh. exact Hb.
Qed.

Lemma keeps_for_each {A} (xs : list A) (body : A -> M unit) :
  (forall x, keeps f (body x)) -> keeps f (for_each xs body).
Proof.
  intros Hb. induction xs as [ | x xs IH]; cbn [for_each].
  - apply keeps_ret.
  - apply keeps_bind; [apply Hb | intros _; exact IH].
Qed.

Lemma keeps_py_get (v : json) (k : string) (default : json) :
  keeps f (py_get v k default).
Proof. intros w. destruct v; reflexivity. Qed.

Lemma keeps_py_items (v : json) : keeps f (py_items v).
Proof. intros w. destruct v; reflexivity. Qed.

Lemma keeps_py_len (v : json) : keeps f (py_len v).
Proof. intros w. destruct v; reflexivity. Qed.

Lemma keeps_py_iter (v : json) : keeps f (py_iter v).
Proof. intros w. destruct v; reflexivity. Qed.

Lemma keeps_raise_for_status (r : Response) : keeps f (raise_for_status r).
Proof. intros w. unfold raise_for_status. destruct (is_http_error _); reflexivity. Qed.

Lemma keeps_response_json (r : Response) : keeps f (response_json r).
Proof. apply keeps_lift. Qed.

Lemma keeps_get_local_r : keeps f get_local_r.
Proof. intros w. reflexivity. Qed.

End Frame.

Create HintDb frame.
#[export] Hint Resolve keeps_ret keeps_raise keeps_lift keeps_py_get
  keeps_py_items keeps_py_len keeps_py_iter keeps_raise_for_status
  keeps_response_json keeps_get_local_r : frame.

(** Rendering touches nothing but [ui]; binding [r] nothing but [local_r]. *)
Lemma render_keeps_history x : keeps history (render x).
Proof. intros w. reflexivity. Qed.
Lemma render_keeps_tools x : keeps tools (render x).
Proof. intros w. reflexivity. Qed.
Lemma render_keeps_posts x : keeps posts (render x).
Proof. intros w. reflexivity. Qed.
Lemma set_local_r_keeps_history r : keeps history (set_local_r r).
Proof. intros w. reflexivity. Qed.
Lemma set_local_r_keeps_tools r : keeps tools (set_local_r r).
Proof. intros w. reflexivity. Qed.
Lemma set_local_r_keeps_posts r : keeps posts (set_local_r r).
Proof. intros w. reflexivity. Qed.
Lemma set_tools_keeps_history v : keeps history (set_tools v).
Proof. intros w. reflexivity. Qed.
Lemma set_tools_keeps_posts v : keeps posts (set_tools v).
Proof. intros w. reflexivity. Qed.
Lemma requests_post_keeps_history env u h b t :
  keeps history (requests_post env u h b t).
Proof. intros w. reflexivity. Qed.
Lemma requests_post_keeps_tools env u h b t :
  keeps tools (requests_post env u h b t).
Proof. intros w. reflexivity. Qed.

#[export] Hint Resolve render_keeps_history render_keeps_tools render_keeps_posts
  set_local_r_keeps_history set_local_r_keeps_tools set_local_r_keeps_posts
  set_tools_keeps_history set_tools_keeps_posts
  requests_post_keeps_history requests_post_keeps_tools : frame.

(** Breaks a computation into its steps and frames each one. *)
Ltac frame :=
  repeat first
    [ apply keeps_bind
    | apply keeps_try_except
    | apply keeps_for_each
    | solve [auto with frame]
    | match goal with |- forall _, _ => intro end ].

(** Stepping through a [try] body. *)
Lemma try_bind_return {A B} (m : M A) (k : A -> M B) (h : exn -> M B)
    (w w1 : World) (a : A) :
  m w = (Return a, w1) ->
  try_except (bind m k) h w = try_except (k a) h w1.
Proof. intros H. unfold try_except, bind. rewrite H. reflexivity. Qed.

Lemma try_bind_raise {A B} (m : M A) (k : A -> M B) (h : exn -> M B)
    (w w1 : World) (e : exn) :
  m w = (Raise e, w1) ->
  try_except (bind m k) h w = h e w1.
Proof. intros H. unfold try_except, bind. rewrite H. reflexivity. Qed.

(** *** What one run of [call_mcp_tool] does *)

Lemma call_mcp_tool_run (env : Env) (tool_name : string) (args : json) (w : World) :
  call_mcp_tool env tool_name args w =
  let call := call_post env tool_name args in
  match network env call with
  | Raise e =>
      (Return tt,
       {| history := history w; tools := tools w; posts := posts w ++ [call];
          ui := ui w ++ [st_error_call tool_name e]; local_r := local_r w |})
  | Return r =>
      let resp := body_of r in
      (Return tt,
       {| history :=
            mkEntry (now_utc_iso env) tool_name (call_payload env tool_name args)
                    resp (status_code r) :: history w;
          tools := tools w;
          posts := posts w ++ [call];
          ui := ui w ++
                (if is_success r resp
                 then [st_success_call tool_name; st_json resp]
                 else [st_error_http tool_name (status_code r); st_write resp]);
          local_r := local_r w |})
  end.
Proof.
  unfold call_mcp_tool, call_post, try_except, bind, requests_post, body_of.
  cbn beta zeta.
  destruct (network env _) as [r | e]; cbn.
  - unfold response_json, lift.
    destruct (json_body r) as [j | e']; cbn.
    + destruct (is_success r j); cbn; rewrite <- app_assoc; reflexivity.
    + destruct (is_success r (fallback_body r)); cbn;
        rewrite <- app_assoc; reflexivity.
  - reflexivity.
Qed.

(** *** Two runs on concrete inputs *)

(** A listing of two tools replaces the catalog and is rendered. *)
Example listing_two_tools :
  let listing := JArr [Examples.tool "echo"; Examples.tool "aiChat"] in
  let body := JObj [("jsonrpc", JStr "2.0"); ("id", JInt 1);
                    ("result", JObj [("tools", listing)])] in
  let w' := snd (tools_list_button (Examples.respond 200 "ok" (Return body))
                   (Examples.with_catalog Examples.three_tools)) in
  tools w' = listing /\
  history w' = [] /\
  ui w' = [st_success_list 2; st_write_heading;
           st_markdown_tool (JStr "echo") (JStr "a tool");
           st_markdown_tool (JStr "aiChat") (JStr "a tool")].
Proof. cbn. repeat split. Qed.

(** The end-to-end scenario of the design: [echo] is called with
    [{msg: "hi"}], the server answers 200 with a result. *)
Example echo_end_to_end :
  let body := JObj [("jsonrpc", JStr "2.0"); ("id", JFloat Examples.t0);
                    ("result", JObj [("echoed", JStr "hi")])] in
  let env := Examples.respond 200 "ok" (Return body) in
  let w' := snd (call_mcp_tool env "echo" (JObj [("msg", JStr "hi")])
                   initial_world) in
  synthesize (JObj [("properties", JObj [("msg", JObj [("type", JStr "string")])])])
             initial_world = (Return [("msg", JStr EmptyString)], initial_world) /\
  map entry_tool (history w') = ["echo"] /\
  map entry_response (history w') = [body] /\
  ui w' = [st_success_call "echo"; st_json body].
Proof. cbn. repeat split. Qed.

(** *** Classification of a response *)

Lemma is_success_truthy_result (r : Response) (resp : json) :
  is_success r resp = ok r && has_truthy_result resp.
Proof.
  unfold is_success, has_truthy_result, dict_get.
  destruct resp as [ | b | n | x | s | items | d]; cbn;
    rewrite ?andb_false_r; try reflexivity.
  rewrite andb_true_r.
  destruct (dict_lookup d "result"); reflexivity.
Qed.

Lemma http_error_range (status : Z) :
  is_http_error status = true <-> 400 <= status < 600.
Proof.
  unfold is_http_error.
  rewrite orb_true_iff, !andb_true_iff, !Z.leb_le, !Z.ltb_lt. lia.
Qed.

Lemma fallback_has_no_result (r : Response) :
  has_truthy_result (fallback_body r) = false.
Proof. reflexivity. Qed.

(** What is rendered for a response is decided by its classification. *)
Lemma call_mcp_tool_rendering (env : Env) (tool_name : string) (args : json)
    (w : World) (r : Response) :
  network env (call_post env tool_name args) = Return r ->
  ui (snd (call_mcp_tool env tool_name args w)) = ui w ++ rendering tool_name r.
Proof.
  intros Hnet. rewrite call_mcp_tool_run. cbn zeta. rewrite Hnet. cbn.
  unfold rendering, classify. destruct (is_success r (body_of r)); reflexivity.
Qed.



(** C2, as the code has it: a response whose status is in 400..599 is a
    ProtocolError whatever its body, and [call_mcp_tool] reports it as an
    HTTP error. *)
Theorem classify_http_error (env : Env) (tool_name : string) (args : json)
    (w : World) (r : Response) (resp : json) :
  400 <= status_code r < 600 ->
  classify r resp = ProtocolError /\
  (network env (call_post env tool_name args) = Return r ->
   ui (snd (call_mcp_tool env tool_name args w)) =
   ui w ++ [st_error_http tool_name (status_code r); st_write (body_of r)]).
Proof.
  intros Hs. apply http_error_range in Hs.
  assert (Hok : forall b, is_success r b = false).
  { intros b. rewrite is_success_truthy_result. unfold ok. rewrite Hs. reflexivity. }
  split.
  - unfold classify. rewrite Hok. reflexivity.
  - intros Hnet. rewrite call_mcp_tool_run. cbn zeta. rewrite Hnet. cbn.
    rewrite Hok. reflexivity.
Qed.

Lemma classify_http_error_witness :
  let r := mkResponse 404 "Not Found" (Return Examples.result_body) in
  let env := Examples.respond 404 "Not Found" (Return Examples.result_body) in
  400 <= status_code r < 600 /\
  classify r Examples.result_body = ProtocolError /\
  ui (snd (call_mcp_tool env "getSystemPrompt" (JObj []) initial_world)) =
  [st_error_http "getSystemPrompt" 404; st_write Examples.result_body].
Proof.
  cbn zeta. split; [cbn; lia | ].
  destruct (classify_http_error
              (Examples.respond 404 "Not Found" (Return Examples.result_body))
              "getSystemPrompt" (JObj []) initial_world
              (mkResponse 404 "Not Found" (Return Examples.result_body))
              Examples.result_body) as [Hc Hui].
  - cbn. lia.
  - split; [exact Hc | apply Hui; reflexivity].
Defined.

(** C2 fails as stated: a 300 response whose body holds a truthy [result]
    is classified Success and shown as a success. *)
Lemma classify_300_is_success :
  let r := mkResponse 300 "Multiple Choices" (Return Examples.result_body) in
  300 <= status_code r /\
  classify r Examples.result_body = Success /\
  ui (snd (call_mcp_tool
             (Examples.respond 300 "Multiple Choices" (Return Examples.result_body))
             "getSystemPrompt" (JObj []) initial_world)) =
  [st_success_call "getSystemPrompt"; st_json Examples.result_body].
Proof. cbn. repeat split. discriminate. Qed.

(** C5: a 2xx response whose body is not an object with a truthy [result]
    is a ProtocolError: [call_mcp_tool] takes the error branch of line 51,
    renders the HTTP error with the body, and records the entry; so it is,
    in particular, for a bare array, a scalar, an object without [result],
    and an object whose [result] is [false], [0], [0.0] or [null]. *)
Theorem classify_2xx_without_truthy_result (env : Env) (tool_name : string)
    (args : json) (w : World) (r : Response) (resp : json) :
  200 <= status_code r < 300 ->
  has_truthy_result resp = false ->
  classify r resp = ProtocolError /\
  (network env (call_post env tool_name args) = Return r ->
   body_of r = resp ->
   let w' := snd (call_mcp_tool env tool_name args w) in
   fst (call_mcp_tool env tool_name args w) = Return tt /\
   ui w' = ui w ++ [st_error_http tool_name (status_code r); st_write resp] /\
   history w' =
     mkEntry (now_utc_iso env) tool_name (call_payload env tool_name args)
             resp (status_code r) :: history w) /\
  (forall items n s b d,
      has_truthy_result (JArr items) = false /\
      has_truthy_result (JInt n) = false /\
      has_truthy_result (JStr s) = false /\
      has_truthy_result (JBool b) = false /\
      has_truthy_result JNull = false /\
      (dict_lookup d "result" = None -> has_truthy_result (JObj d) = false) /\
      has_truthy_result (JObj [("result", JBool false)]) = false /\
      has_truthy_result (JObj [("result", JInt 0)]) = false /\
      has_truthy_result (JObj [("result", JFloat (S754_zero false))]) = false /\
      has_truthy_result (JObj [("result", JNull)]) = false).
Proof.
  intros _ Hres.
  assert (Hs : is_success r resp = false).
  { rewrite is_success_truthy_result, Hres, andb_false_r. reflexivity. }
  split; [ | split].
  - unfold classify. rewrite Hs. reflexivity.
  - intros Hnet Hb. cbn zeta. rewrite call_mcp_tool_run. cbn zeta.
    rewrite Hnet, Hb, Hs. cbn. repeat split.
  - intros items n s b d. repeat split.
    intros Hd. cbn. rewrite Hd. reflexivity.
Qed.

Lemma classify_2xx_without_truthy_result_witness :
  let r := mkResponse 200 "OK" (Return Examples.error_body) in
  let env := Examples.respond 200 "OK" (Return Examples.error_body) in
  200 <= status_code r < 300 /\
  has_truthy_result Examples.error_body = false /\
  classify r Examples.error_body = ProtocolError /\
  ui (snd (call_mcp_tool env "getSystemPrompt" (JObj []) initial_world)) =
  [st_error_http "getSystemPrompt" 200; st_write Examples.error_body].
Proof.
  cbn zeta. split; [cbn; lia | ]. split; [reflexivity | ].
  destruct (classify_2xx_without_truthy_result
              (Examples.respond 200 "OK" (Return Examples.error_body))
              "getSystemPrompt" (JObj []) initial_world
              (mkResponse 200 "OK" (Return Examples.error_body))
              Examples.error_body) as (Hc & Hrun & _).
  - cbn. lia.
  - reflexivity.
  - split; [exact Hc | ].
    apply Hrun; reflexivity.
Defined.

(** C7: when the body of a response does not decode, [call_mcp_tool] still
    returns normally; the body it records and shows is the fallback object
    with the raw text and the status code of the response, and the
    response is a ProtocolError. *)
Theorem undecodable_body_falls_back (env : Env) (tool_name : string)
    (args : json) (w : World) (status : Z) (raw : string) (e : exn) :
  let r := mkResponse status raw (Raise e) in
  let fallback := JObj [("raw_text", JStr raw); ("status_code", JInt status)] in
  let w' := snd (call_mcp_tool env tool_name args w) in
  network env (call_post env tool_name args) = Return r ->
  fst (call_mcp_tool env tool_name args w) = Return tt /\
  classify r (body_of r) = ProtocolError /\
  body_of r = fallback /\
  history w' =
    mkEntry (now_utc_iso env) tool_name (call_payload env tool_name args)
            fallback status :: history w /\
  ui w' = ui w ++ [st_error_http tool_name status; st_write fallback].
Proof.
  cbn zeta. intros Hnet.
  rewrite call_mcp_tool_run. cbn zeta. rewrite Hnet.
  unfold body_of, classify. cbn [json_body status_code text fallback_body].
  rewrite is_success_truthy_result.
  replace (has_truthy_result _) with false by reflexivity.
  rewrite andb_false_r. cbn. repeat split.
Qed.

Lemma undecodable_body_falls_back_witness :
  let env := Examples.respond 200 "<html>hello</html>"
               (Raise (JSONDecodeError "Expecting value")) in
  let w' := snd (call_mcp_tool env "aiChat" (JObj []) initial_world) in
  ui w' =
  [st_error_http "aiChat" 200;
   st_write (JObj [("raw_text", JStr "<html>hello</html>");
                   ("status_code", JInt 200)])].
Proof.
  cbn zeta.
  apply (undecodable_body_falls_back
           (Examples.respond 200 "<html>hello</html>"
              (Raise (JSONDecodeError "Expecting value")))
           "aiChat" (JObj []) initial_world 200 "<html>hello</html>"
           (JSONDecodeError "Expecting value")).
  reflexivity.
Defined.


(** *** The "tools/list" button *)

Lemma tools_list_button_keeps_history env : keeps history (tools_list_button env).
Proof. unfold tools_list_button. frame. Qed.

Lemma tools_list_button_posts env w :
  posts (snd (tools_list_button env w)) = posts w ++ [list_post env].
Proof.
  unfold tools_list_button.
  unfold bind at 1. cbn [set_local_r].
  set (w0 := {| history := history w; tools := tools w; posts := posts w;
                ui := ui w; local_r := None |}).
  set (h := fun e : exn => _).
  assert (Hh : forall e, keeps posts (h e)) by (subst h; frame).
  destruct (network env (list_post env)) as [r | e] eqn:Hnet.
  - erewrite try_bind_return
      by (unfold requests_post; fold (list_post env); rewrite Hnet; reflexivity).
    rewrite keeps_try_except; [reflexivity | frame | exact Hh].
  - erewrite try_bind_raise
      by (unfold requests_post; fold (list_post env); rewrite Hnet; reflexivity).
    rewrite Hh. reflexivity.
Qed.

Lemma tools_list_button_tools env w :
  tools (snd (tools_list_button env w)) =
  match network env (list_post env) with
  | Return r =>
      match listed_tools r with
      | Some v => v
      | None => tools w
      end
  | Raise _ => tools w
  end.
Proof.
  unfold tools_list_button.
  unfold bind at 1. cbn [set_local_r].
  set (w0 := {| history := history w; tools := tools w; posts := posts w;
                ui := ui w; local_r := None |}).
  set (h := fun e : exn => _).
  assert (Hh : forall e w1, tools (snd (h e w1)) = tools w1)
    by (intros e; change (keeps tools (h e)); subst h; frame).
  destruct (network env (list_post env)) as [r | e] eqn:Hnet.
  2:{ erewrite try_bind_raise
        by (unfold requests_post; fold (list_post env); rewrite Hnet; reflexivity).
      rewrite Hh. reflexivity. }
  erewrite try_bind_return
    by (unfold requests_post; fold (list_post env); rewrite Hnet; reflexivity).
  erewrite try_bind_return by reflexivity.
  unfold listed_tools, raise_for_status.
  destruct (is_http_error (status_code r)).
  { erewrite try_bind_raise by reflexivity. rewrite Hh. reflexivity. }
  erewrite try_bind_return by reflexivity.
  unfold response_json, lift.
  destruct (json_body r) as [resp | e].
  2:{ erewrite try_bind_raise by reflexivity. rewrite Hh. reflexivity. }
  erewrite try_bind_return by reflexivity.
  destruct resp as [ | b | n | x | s | items | d];
    try (erewrite try_bind_raise by reflexivity; rewrite Hh; reflexivity).
  erewrite try_bind_return by reflexivity.
  destruct (dict_get d "result" (JObj [])) as [ | b | n | x | s | items | result];
    try (erewrite try_bind_raise by reflexivity; rewrite Hh; reflexivity).
  erewrite try_bind_return by reflexivity.
  erewrite try_bind_return by reflexivity.
  rewrite keeps_try_except; [reflexivity | frame | exact Hh].
Qed.

(** C3, as the code has it: the cached catalog is left unchanged whenever
    the refresh raises before line 151, that is when the transport raises,
    the status is in 400..599, the body does not decode, the body is not an
    object, or its [result] is not an object; a response that passes these
    checks replaces the catalog by the [tools] of its [result] (the empty
    list when the result has none), and by the empty list when it has no
    [result]. *)
Theorem failed_refresh_keeps_catalog (env : Env) (w : World) :
  let w' := snd (tools_list_button env w) in
  match network env (list_post env) with
  | Raise _ => tools w' = tools w
  | Return r =>
      (400 <= status_code r < 600 -> tools w' = tools w) /\
      (forall e, json_body r = Raise e -> tools w' = tools w) /\
      (forall v, json_body r = Return v -> isinstance_dict v = false ->
                 tools w' = tools w) /\
      (forall d, json_body r = Return (JObj d) ->
                 isinstance_dict (dict_get d "result" (JObj [])) = false ->
                 tools w' = tools w) /\
      (forall d, ~ 400 <= status_code r < 600 ->
                 json_body r = Return (JObj d) ->
                 dict_lookup d "result" = None ->
                 tools w' = JArr []) /\
      (forall d result, ~ 400 <= status_code r < 600 ->
                 json_body r = Return (JObj d) ->
                 dict_get d "result" (JObj []) = JObj result ->
                 tools w' = dict_get result "tools" (JArr []))
  end.
Proof.
  cbn zeta. rewrite tools_list_button_tools.
  destruct (network env (list_post env)) as [r | e]; [ | reflexivity].
  unfold listed_tools.
  split; [ | split; [ | split; [ | split; [ | split ] ] ] ].
  - intros Hs. apply http_error_range in Hs. rewrite Hs. reflexivity.
  - intros e He. rewrite He. destruct (is_http_error _); reflexivity.
  - intros v Hv Hd. rewrite Hv.
    destruct (is_http_error _); [reflexivity | ].
    destruct v; try reflexivity; discriminate.
  - intros d Hv Hd. rewrite Hv.
    destruct (is_http_error _); [reflexivity | ].
    destruct (dict_get d "result" (JObj [])); try reflexivity; discriminate.
  - intros d Hs Hv Hd. rewrite Hv.
    destruct (is_http_error (status_code r)) eqn:E.
    + apply http_error_range in E. contradiction.
    + unfold dict_get. rewrite Hd. reflexivity.
  - intros d result Hs Hv Hr. rewrite Hv.
    destruct (is_http_error (status_code r)) eqn:E.
    + apply http_error_range in E. contradiction.
    + rewrite Hr. reflexivity.
Qed.

Lemma failed_refresh_keeps_catalog_witness :
  let down := Examples.respond 500 "Internal Server Error"
                (Return Examples.error_body) in
  let w := Examples.with_catalog Examples.three_tools in
  tools (snd (tools_list_button down w)) = Examples.three_tools /\
  tools (snd (tools_list_button (Cases.listing_env Cases.two_tools) w)) =
  Cases.two_tools.
Proof.
  cbn zeta. split.
  - apply (failed_refresh_keeps_catalog
             (Examples.respond 500 "Internal Server Error"
                (Return Examples.error_body))
             (Examples.with_catalog Examples.three_tools)).
    cbn. lia.
  - apply (failed_refresh_keeps_catalog
             (Cases.listing_env Cases.two_tools)
             (Examples.with_catalog Examples.three_tools))
      with (d := [("jsonrpc", JStr "2.0"); ("id", JInt 1);
                  ("result", JObj [("tools", Cases.two_tools)])])
           (result := [("tools", Cases.two_tools)]).
    + cbn. lia.
    + reflexivity.
    + reflexivity.
Defined.

(** C3 fails as stated: the server answers 200 with a JSON-RPC error, which
    is a ProtocolError, and the catalog of three tools is emptied. *)
Lemma refresh_error_body_clears_catalog :
  let r := mkResponse 200 "error" (Return Examples.error_body) in
  let w := Examples.with_catalog Examples.three_tools in
  let w' := snd (tools_list_button
                   (Examples.respond 200 "error" (Return Examples.error_body)) w) in
  classify r Examples.error_body = ProtocolError /\
  tools w = Examples.three_tools /\
  tools w' = JArr [] /\
  tools w' <> tools w.
Proof. cbn. repeat split. discriminate. Qed.

(** *** The default-argument synthesizer *)

Lemma mem_key_In (k : string) (ks : list string) :
  mem_key k ks = true <-> In k ks.
Proof.
  induction ks as [ | k' ks IH]; cbn.
  - split; [discriminate | contradiction].
  - rewrite orb_true_iff, String.eqb_eq, IH. reflexivity.
Qed.

Lemma unique_keys_NoDup (d : dict) :
  unique_keys d = true <-> NoDup (map fst d).
Proof.
  induction d as [ | [k v] d IH]; cbn.
  - split; [constructor | reflexivity].
  - rewrite andb_true_iff, negb_true_iff, IH. split.
    + intros [Hk Hd]. constructor; [ | exact Hd].
      rewrite <- mem_key_In. rewrite Hk. discriminate.
    + intros H. inversion H as [ | x l Hk Hd]; subst. split; [ | exact Hd].
      destruct (mem_key k (map fst d)) eqn:E; [ | reflexivity].
      apply mem_key_In in E. contradiction.
Qed.

Lemma dict_setitem_new (d : dict) (k : string) (v : json) :
  ~ In k (map fst d) -> dict_setitem d k v = d ++ [(k, v)].
Proof.
  induction d as [ | [k' v'] d IH]; cbn; intros Hk.
  - reflexivity.
  - destruct (String.eqb_spec k' k) as [-> | Hne].
    + exfalso. apply Hk. left. reflexivity.
    + rewrite IH; [reflexivity | ]. intros Hin. apply Hk. right. exact Hin.
Qed.

Lemma placeholder_of_dict (d : dict) (w : World) :
  placeholder (JObj d) w =
  (Return (placeholder_by_type (declared_type (JObj d))), w).
Proof.
  unfold placeholder, bind, py_get, ret, dict_get, declared_type.
  destruct (dict_lookup d "type") as [ty | ]; [ | reflexivity].
  destruct ty; reflexivity.
Qed.

Lemma synthesize_loop_run (items : dict) :
  forall (acc : dict) (w : World),
    forallb isinstance_dict (map snd items) = true ->
    NoDup (map fst (acc ++ items)) ->
    synthesize_loop items acc w = (Return (acc ++ placeholders items), w).
Proof.
  induction items as [ | [k v] items IH]; intros acc w Hd Hu.
  - cbn. rewrite app_nil_r. reflexivity.
  - cbn in Hd. apply andb_true_iff in Hd as [Hv Hd].
    destruct v as [ | | | | | | d]; try discriminate.
    cbn [synthesize_loop]. unfold bind. rewrite placeholder_of_dict.
    rewrite map_app in Hu. cbn in Hu.
    rewrite dict_setitem_new.
    + rewrite IH; [ | exact Hd | ].
      * rewrite <- app_assoc. reflexivity.
      * rewrite !map_app. cbn. rewrite <- app_assoc. exact Hu.
    + apply NoDup_remove_2 in Hu. intros Hin. apply Hu.
      apply in_or_app. left. exact Hin.
Qed.

(** C4, as the code has it: for a schema object whose [properties] (when
    present) is an object that declares each property by an object,
    [synthesize] returns, in declaration order, every property with the
    placeholder of its declared type string: the empty string for
    ["string"], 0 for ["number"], false for ["boolean"], the empty list for
    ["array"], and null for any other or absent type. *)
Theorem synthesize_placeholders (d props : dict) (w : World) :
  dict_get d "properties" (JObj []) = JObj props ->
  forallb isinstance_dict (map snd props) = true ->
  unique_keys props = true ->
  synthesize (JObj d) w = (Return (placeholders props), w) /\
  map fst (placeholders props) = map fst props /\
  placeholder_by_type (Some "string") = JStr EmptyString /\
  placeholder_by_type (Some "number") = JInt 0 /\
  placeholder_by_type (Some "boolean") = JBool false /\
  placeholder_by_type (Some "array") = JArr [] /\
  (forall s, s <> "string" -> s <> "number" -> s <> "boolean" -> s <> "array" ->
             placeholder_by_type (Some s) = JNull) /\
  placeholder_by_type None = JNull.
Proof.
  intros Hp Hd Hu. split; [ | split].
  - unfold synthesize, bind, py_get, ret. rewrite Hp. cbn.
    rewrite synthesize_loop_run; [reflexivity | exact Hd | ].
    apply unique_keys_NoDup. exact Hu.
  - unfold placeholders. rewrite map_map. reflexivity.
  - repeat split.
    intros s H1 H2 H3 H4. unfold placeholder_by_type.
    apply String.eqb_neq in H1, H2, H3, H4. rewrite H1, H2, H3, H4. reflexivity.
Qed.

Lemma synthesize_placeholders_witness :
  synthesize Examples.schema8 initial_world =
  (Return [("a", JStr EmptyString); ("b", JInt 0); ("c", JBool false);
           ("d", JArr []); ("e", JNull)],
   initial_world).
Proof.
  apply (synthesize_placeholders [("properties", JObj Examples.props8)]
           Examples.props8 initial_world); reflexivity.
Defined.

(** C4 fails as stated: a schema that declares a property by [true] (a
    boolean schema) is rejected with an exception. *)
Lemma synthesize_rejects_boolean_schema :
  synthesize (JObj [("properties", JObj [("a", JBool true)])]) initial_world =
  (Raise (AttributeError "get"), initial_world).
Proof. reflexivity. Qed.

(** *** The "tools/call" button *)

(** C6, as the code has it: when the argument text is not blank and does
    not parse as JSON, nothing is sent over the transport and nothing is
    recorded; the error is rendered and the catalog, the history and the
    log of requests are as before. *)
Theorem malformed_arguments_not_dispatched (env : Env) (selected : string)
    (args_text : string) (e : exn) (w : World) :
  strip args_text <> EmptyString ->
  json_loads env args_text = Raise e ->
  tools_call_button env selected args_text w =
  (Return tt,
   {| history := history w; tools := tools w; posts := posts w;
      ui := ui w ++ [st_error_args e]; local_r := local_r w |}).
Proof.
  intros Hs Hl. unfold tools_call_button, try_except, bind.
  destruct (strip args_text) as [ | c s]; [contradiction | ].
  cbn [str_truthy]. unfold lift. rewrite Hl. reflexivity.
Qed.

Lemma malformed_arguments_not_dispatched_witness :
  let w' := snd (tools_call_button
                   (Examples.respond 200 "ok" (Return Examples.result_body))
                   "getKVFlag" "{key: SYSTEM_PROMPT" initial_world) in
  posts w' = [] /\ history w' = [] /\ tools w' = JArr [].
Proof.
  cbn zeta.
  rewrite (malformed_arguments_not_dispatched
             (Examples.respond 200 "ok" (Return Examples.result_body))
             "getKVFlag" "{key: SYSTEM_PROMPT"
             (JSONDecodeError "Expecting value") initial_world).
  - repeat split.
  - cbn. discriminate.
  - reflexivity.
Defined.

(** C6 fails as stated: the empty text does not parse as JSON, yet the call
    is dispatched, with [{}] as its arguments, and recorded. *)
Lemma blank_arguments_are_dispatched :
  let env := Examples.respond 200 "ok" (Return Examples.result_body) in
  let w' := snd (tools_call_button env "getSystemPrompt" EmptyString
                   initial_world) in
  json_loads env EmptyString = Raise (JSONDecodeError "Expecting value") /\
  posts w' = [call_post env "getSystemPrompt" (JObj [])] /\
  List.length (history w') = 1%nat.
Proof. cbn. repeat split. Qed.

(** *** Envelopes and ids *)

(** C8: both envelopes carry ["2.0"] as [jsonrpc] and their method; the
    [tools/call] envelope nests [{name, arguments}] as its [params], with
    the arguments exactly as given, and is what goes over the transport;
    the [tools/list] envelope has no [params]. *)
Theorem envelopes (env : Env) (tool_name : string) (args : json) (w : World) :
  (exists d,
      call_payload env tool_name args = JObj d /\
      dict_lookup d "jsonrpc" = Some (JStr "2.0") /\
      dict_lookup d "method" = Some (JStr "tools/call") /\
      dict_lookup d "params" =
        Some (JObj [("name", JStr tool_name); ("arguments", args)]) /\
      map fst d = ["jsonrpc"; "id"; "method"; "params"]) /\
  (exists d,
      list_payload = JObj d /\
      dict_lookup d "jsonrpc" = Some (JStr "2.0") /\
      dict_lookup d "method" = Some (JStr "tools/list") /\
      dict_lookup d "params" = None /\
      map fst d = ["jsonrpc"; "id"; "method"]) /\
  map post_json (posts (snd (call_mcp_tool env tool_name args w))) =
    map post_json (posts w) ++ [call_payload env tool_name args] /\
  map post_json (posts (snd (tools_list_button env w))) =
    map post_json (posts w) ++ [list_payload].
Proof.
  split; [ | split; [ | split ] ].
  - eexists. split; [reflexivity | ]. cbn. repeat split.
  - eexists. split; [reflexivity | ]. cbn. repeat split.
  - rewrite call_mcp_tool_run. cbn zeta.
    destruct (network env _); cbn; rewrite map_app; reflexivity.
  - rewrite tools_list_button_posts, map_app. reflexivity.
Qed.

(** *** Totality of a dispatch *)

(** C10: [call_mcp_tool] returns normally on every input. An exception
    raised while sending is rendered as an error of the call; a body that
    does not decode is replaced by the fallback and rendered as an HTTP
    error. *)
Theorem call_mcp_tool_never_raises (env : Env) (tool_name : string)
    (args : json) (w : World) :
  let w' := snd (call_mcp_tool env tool_name args w) in
  fst (call_mcp_tool env tool_name args w) = Return tt /\
  match network env (call_post env tool_name args) with
  | Raise e => ui w' = ui w ++ [st_error_call tool_name e]
  | Return r =>
      match json_body r with
      | Raise _ =>
          ui w' = ui w ++ [st_error_http tool_name (status_code r);
                           st_write (fallback_body r)]
      | Return _ => True
      end
  end.
Proof.
  cbn zeta. rewrite call_mcp_tool_run. cbn zeta.
  destruct (network env _) as [r | e]; cbn; [ | split; reflexivity].
  split; [reflexivity | ].
  unfold body_of. destruct (json_body r) as [j | e]; [exact I | ].
  rewrite is_success_truthy_result, fallback_has_no_result, andb_false_r.
  reflexivity.
Qed.

(** *** Button presses *)

Lemma call_mcp_tool_returns (env : Env) (tool_name : string) (args : json)
    (w : World) :
  fst (call_mcp_tool env tool_name args w) = Return tt.
Proof.
  rewrite call_mcp_tool_run. cbn zeta.
  destruct (network env _); reflexivity.
Qed.

Lemma call_then_ret {A} (env : Env) (tool_name : string) (args : json) (x : A)
    (w : World) :
  (call_mcp_tool env tool_name args ;; ret x) w =
  (Return x, snd (call_mcp_tool env tool_name args w)).
Proof.
  unfold bind. pose proof (call_mcp_tool_returns env tool_name args w) as H.
  destruct (call_mcp_tool env tool_name args w) as [[[] | e] w1]; cbn in *.
  - reflexivity.
  - discriminate.
Qed.

Lemma call_alone (env : Env) (tool_name : string) (args : json) (w : World) :
  call_mcp_tool env tool_name args w =
  (Return tt, snd (call_mcp_tool env tool_name args w)).
Proof.
  pose proof (call_mcp_tool_returns env tool_name args w) as H.
  destruct (call_mcp_tool env tool_name args w) as [o w1]; cbn in *.
  rewrite H. reflexivity.
Qed.

Lemma bind_ret_tt {A} (m : M A) (w : World) (a : A) (w1 : World) :
  m w = (Return a, w1) -> (m ;; ret tt) w = (Return tt, w1).
Proof. intros H. unfold bind. rewrite H. reflexivity. Qed.

(** A press that makes a call is that call. *)
Lemma press_calls (env : Env) (a : action) (tool_name : string) (args : json)
    (w : World) :
  call_of env a = Some (tool_name, args) ->
  press env a w = (Return tt, snd (call_mcp_tool env tool_name args w)).
Proof.
  destruct a as [ | k | k v | p s c | n c d f | | | s t]; cbn [call_of press].
  - intros [= <- <-]. apply bind_ret_tt with (a := None).
    apply call_then_ret.
  - unfold get_kv_button. destruct (str_truthy k); [ | discriminate].
    intros [= <- <-]. apply bind_ret_tt with (a := None). apply call_then_ret.
  - unfold set_kv_button. destruct (str_truthy k && str_truthy v); [ | discriminate].
    intros [= <- <-]. apply bind_ret_tt with (a := None). apply call_then_ret.
  - unfold ai_button. destruct (str_truthy p); [ | discriminate].
    intros [= <- <-]. apply bind_ret_tt with (a := None). apply call_then_ret.
  - unfold worker_button.
    destruct (str_truthy n && str_truthy c); [ | discriminate].
    destruct (negb d && negb f); [discriminate | ].
    intros [= <- <-]. apply bind_ret_tt with (a := None). apply call_then_ret.
  - intros [= <- <-]. apply bind_ret_tt with (a := None). apply call_then_ret.
  - discriminate.
  - unfold tools_call_button, try_except, bind at 1.
    destruct (str_truthy (strip t)).
    + unfold lift. destruct (json_loads env t) as [v | e]; [ | discriminate].
      intros [= <- <-]. rewrite call_alone. reflexivity.
    + intros [= <- <-]. cbn [ret]. rewrite call_alone. reflexivity.
Qed.

(** A press that makes no call and is not the listing leaves the session
    state alone. *)
Lemma press_idle (env : Env) (a : action) (w : World) :
  call_of env a = None -> a <> ListTools ->
  let w' := snd (press env a w) in
  fst (press env a w) = Return tt /\
  history w' = history w /\ tools w' = tools w /\ posts w' = posts w.
Proof.
  destruct a as [ | k | k v | p s c | n c d f | | | s t]; cbn [call_of press];
    try discriminate.
  - unfold get_kv_button. destruct (str_truthy k); [discriminate | ].
    intros _ _. cbn. repeat split.
  - unfold set_kv_button. destruct (str_truthy k && str_truthy v); [discriminate | ].
    intros _ _. cbn. repeat split.
  - unfold ai_button. destruct (str_truthy p); [discriminate | ].
    intros _ _. cbn. repeat split.
  - unfold worker_button.
    destruct (str_truthy n && str_truthy c); cbn [andb].
    + destruct (negb d && negb f); [ | discriminate].
      intros _ _. cbn. repeat split.
    + intros _ _. cbn. repeat split.
  - intros _ H. contradiction.
  - unfold tools_call_button, try_except, bind.
    destruct (str_truthy (strip t)); [ | discriminate].
    unfold lift. destruct (json_loads env t) as [v | e]; [discriminate | ].
    intros _ _. cbn. repeat split.
Qed.

(** *** The "tools/list" handler, step by step *)

Lemma listing_except_run (e : exn) (w : World) :
  listing_except e w =
  (Return tt, shown w [st_error_list e; st_write_text (raw_text (local_r w))]).
Proof.
  unfold listing_except, bind, render, get_local_r, shown, raw_text. cbn.
  rewrite <- app_assoc. reflexivity.
Qed.

Lemma shown_shown (w : World) (xs ys : list widget) :
  shown (shown w xs) ys = shown w (xs ++ ys).
Proof. unfold shown. cbn. rewrite app_assoc. reflexivity. Qed.

Lemma shown_nil (w : World) : shown w [] = w.
Proof. unfold shown. rewrite app_nil_r. destruct w; reflexivity. Qed.

Lemma chars_length (s : string) : List.length (chars s) = String.length s.
Proof. induction s as [ | c s IH]; cbn; [reflexivity | rewrite IH; reflexivity]. Qed.

Lemma tool_line_run (d : dict) (w : World) :
  (name <- py_get (JObj d) "name" JNull ;;
   description <- py_get (JObj d) "description" JNull ;;
   render (st_markdown_tool name description)) w =
  (Return tt, shown w [tool_line (JObj d)]).
Proof. reflexivity. Qed.

(** The loop of lines 154-155 under the handler of lines 156-158. *)
Lemma listing_loop_run (ts : list json) :
  forall w : World,
    try_except
      (for_each ts (fun t =>
         name <- py_get t "name" JNull ;;
         description <- py_get t "description" JNull ;;
         render (st_markdown_tool name description)))
      listing_except w =
    (Return tt,
     shown w (map tool_line (leading_dicts ts)
              ++ (if forallb isinstance_dict ts then []
                  else [st_error_list (AttributeError "get");
                        st_write_text (raw_text (local_r w))]))).
Proof.
  induction ts as [ | t ts IH]; intros w.
  - cbn. rewrite shown_nil. reflexivity.
  - cbn [for_each leading_dicts forallb].
    destruct t as [ | b | n | x | s | items | d];
      try (erewrite try_bind_raise by reflexivity;
           rewrite listing_except_run; reflexivity).
    erewrite try_bind_return by apply tool_line_run.
    rewrite IH. cbn [isinstance_dict andb map].
    rewrite shown_shown. reflexivity.
Qed.

(** One run of the "tools/list" handler, in full. *)
Lemma tools_list_button_run (env : Env) (w : World) :
  tools_list_button env w =
  (Return tt,
   match network env (list_post env) with
   | Raise e =>
       shown (sent w (list_post env) None)
             [st_error_list e; st_write_text EmptyString]
   | Return r =>
       match listing_of r with
       | Raise e =>
           shown (sent w (list_post env) (Some r))
                 [st_error_list e; st_write_text (text r)]
       | Return v =>
           shown (with_tools (sent w (list_post env) (Some r)) v)
                 (listing_widgets r v)
       end
   end).
Proof.
  unfold tools_list_button.
  unfold bind at 1. cbn [set_local_r].
  change (fun e : exn => render (st_error_list e) ;; _) with listing_except.
  set (w0 := {| history := history w; tools := tools w; posts := posts w;
                ui := ui w; local_r := None |}).
  destruct (network env (list_post env)) as [r | e] eqn:Hnet.
  2:{ erewrite try_bind_raise
        by (unfold requests_post; fold (list_post env); rewrite Hnet; reflexivity).
      rewrite listing_except_run. reflexivity. }
  erewrite try_bind_return
    by (unfold requests_post; fold (list_post env); rewrite Hnet; reflexivity).
  erewrite try_bind_return by reflexivity.
  unfold listing_of, raise_for_status.
  destruct (is_http_error (status_code r)).
  { erewrite try_bind_raise by reflexivity.
    rewrite listing_except_run. reflexivity. }
  erewrite try_bind_return by reflexivity.
  unfold response_json, lift.
  destruct (json_body r) as [resp | e].
  2:{ erewrite try_bind_raise by reflexivity.
      rewrite listing_except_run. reflexivity. }
  erewrite try_bind_return by reflexivity.
  destruct resp as [ | b | n | x | s | items | d];
    try (erewrite try_bind_raise by reflexivity;
         rewrite listing_except_run; reflexivity).
  erewrite try_bind_return by reflexivity.
  destruct (dict_get d "result" (JObj [])) as [ | b | n | x | s | items | result];
    try (erewrite try_bind_raise by reflexivity;
         rewrite listing_except_run; reflexivity).
  erewrite try_bind_return by reflexivity.
  erewrite try_bind_return by reflexivity.
  set (v := dict_get result "tools" (JArr [])).
  unfold listing_widgets.
  destruct v as [ | b | n | x | s | items | fields]; cbn [sized];
    try (erewrite try_bind_raise by reflexivity;
         rewrite listing_except_run; reflexivity).
  all: do 4 (erewrite try_bind_return by reflexivity);
    rewrite listing_loop_run; cbn [elements];
    rewrite ?chars_length, ?length_map;
    unfold shown, with_tools, sent, raw_text;
    cbn [history tools posts ui local_r];
    rewrite <- !app_assoc; reflexivity.
Qed.

(** *** One press, then a session *)

Lemma press_posts (env : Env) (a : action) (w : World) :
  posts (snd (press env a w)) = posts w ++ opt_list (request_of env a).
Proof.
  destruct (call_of env a) as [[tool_name args] | ] eqn:Hc.
  - rewrite (press_calls env a tool_name args w Hc). cbn [snd].
    assert (Hr : request_of env a = Some (call_post env tool_name args)).
    { unfold request_of. rewrite Hc. destruct a; try reflexivity. discriminate. }
    rewrite Hr, call_mcp_tool_run. cbn zeta.
    destruct (network env _); reflexivity.
  - destruct a as [ | k | k v | p s c | n c d f | | | s t] eqn:Ha;
      try (rewrite <- Ha in *;
           destruct (press_idle env a w Hc ltac:(subst a; discriminate))
             as (_ & _ & _ & Hp);
           rewrite Hp; unfold request_of; rewrite Hc; subst a; cbn;
           rewrite app_nil_r; reflexivity).
    cbn [press request_of opt_list]. rewrite tools_list_button_run. cbn [snd].
    destruct (network env (list_post env)) as [r | e]; [ | reflexivity].
    destruct (listing_of r); reflexivity.
Qed.

Lemma press_history (env : Env) (a : action) (w : World) :
  history (snd (press env a w)) = opt_list (entry_of env a) ++ history w.
Proof.
  unfold entry_of.
  destruct (call_of env a) as [[tool_name args] | ] eqn:Hc.
  - rewrite (press_calls env a tool_name args w Hc). cbn [snd].
    rewrite call_mcp_tool_run. cbn zeta.
    destruct (network env _); reflexivity.
  - destruct a as [ | k | k v | p s c | n c d f | | | s t] eqn:Ha;
      try (rewrite <- Ha in *;
           destruct (press_idle env a w Hc ltac:(subst a; discriminate))
             as (_ & Hh & _ & _);
           rewrite Hh; reflexivity).
    cbn [press opt_list app]. apply tools_list_button_keeps_history.
Qed.

Lemma press_tools (env : Env) (a : action) (w : World) :
  is_listing a = false -> tools (snd (press env a w)) = tools w.
Proof.
  intros Ha.
  destruct (call_of env a) as [[tool_name args] | ] eqn:Hc.
  - rewrite (press_calls env a tool_name args w Hc). cbn [snd].
    rewrite call_mcp_tool_run. cbn zeta.
    destruct (network env _); reflexivity.
  - apply (press_idle env a w Hc). intros ->. discriminate.
Qed.

(** *** Properties of a session *)

(** X1: no button handler lets an exception escape: whatever the operator
    typed and whatever the network did, the handler returns normally. *)
Theorem no_press_raises (env : Env) (a : action) (w : World) :
  fst (press env a w) = Return tt.
Proof.
  destruct (call_of env a) as [[tool_name args] | ] eqn:Hc.
  - rewrite (press_calls env a tool_name args w Hc). reflexivity.
  - destruct a as [ | k | k v | p s c | n c d f | | | s t] eqn:Ha;
      try (rewrite <- Ha in *;
           apply (press_idle env a w Hc); subst a; discriminate).
    cbn [press]. rewrite tools_list_button_run. reflexivity.
Qed.

Lemma session_step (env : Env) (a : action) (steps : list (Env * action))
    (w : World) :
  run_session ((env, a) :: steps) w = run_session steps (snd (press env a w)).
Proof. reflexivity. Qed.

(** X2: the requests of a session are exactly the requests of its presses,
    in order, after the earlier ones: a press posts at most one request,
    and none is ever dropped from the log. *)
Theorem session_posts (steps : list (Env * action)) (w : World) :
  posts (run_session steps w) = posts w ++ requests_of steps /\
  (List.length (requests_of steps) <= List.length steps)%nat.
Proof.
  split.
  - revert w. induction steps as [ | [env a] steps IH]; intros w.
    + cbn. rewrite app_nil_r. reflexivity.
    + rewrite session_step, IH, press_posts. unfold requests_of. cbn [flat_map fst snd].
      rewrite <- app_assoc. reflexivity.
  - induction steps as [ | [env a] steps IH]; [cbn; lia | ].
    unfold requests_of in *. cbn [flat_map fst snd]. rewrite length_app.
    destruct (request_of env a); cbn [opt_list List.length] in *; lia.
Qed.

(** X3: the history after a session is exactly the entries of the presses
    that made a tool call and got a response, newest first, in front of the
    earlier history; no entry is ever removed, changed or reordered, and
    there are never more new entries than new requests. *)
Theorem session_history (steps : list (Env * action)) (w : World) :
  history (run_session steps w) = rev (entries_of steps) ++ history w /\
  (List.length (entries_of steps) <= List.length (requests_of steps))%nat.
Proof.
  split.
  - revert w. induction steps as [ | [env a] steps IH]; intros w.
    + reflexivity.
    + rewrite session_step, IH, press_history. unfold entries_of.
      cbn [flat_map fst snd]. rewrite rev_app_distr, <- app_assoc.
      destruct (entry_of env a); reflexivity.
  - induction steps as [ | [env a] steps IH]; [cbn; lia | ].
    unfold entries_of, requests_of in *. cbn [flat_map fst snd].
    rewrite !length_app.
    assert (List.length (opt_list (entry_of env a))
            <= List.length (opt_list (request_of env a)))%nat; [ | lia].
    unfold entry_of, request_of.
    destruct (call_of env a) as [[tool_name args] | ] eqn:Hc; [ | cbn; lia].
    destruct a; try discriminate;
      destruct (network env _); cbn; lia.
Qed.

(** X4: only the "tools/list" button changes the cached catalog: after any
    session without a listing the catalog is the one it started with. *)
Theorem catalog_changes_only_by_listing (steps : list (Env * action)) (w : World) :
  forallb (fun s => negb (is_listing (snd s))) steps = true ->
  tools (run_session steps w) = tools w.
Proof.
  revert w. induction steps as [ | [env a] steps IH]; intros w H.
  - reflexivity.
  - cbn in H. apply andb_true_iff in H as [Ha H].
    rewrite session_step, IH by exact H.
    apply press_tools. apply negb_true_iff. exact Ha.
Qed.

Lemma entry_of_wf (env : Env) (a : action) (e : HistoryEntry) :
  entry_of env a = Some e -> entry_wf e.
Proof.
  unfold entry_of.
  destruct (call_of env a) as [[tool_name args] | ]; [ | discriminate].
  destruct (network env _) as [r | x]; [ | discriminate].
  intros [= <-]. exists (now_timestamp env), args. reflexivity.
Qed.

(** X5: every entry of the history holds the [tools/call] envelope of the
    tool it names: if that is so before a session, it is so after it. *)
Theorem history_entries_name_their_tool (steps : list (Env * action)) (w : World) :
  Forall entry_wf (history w) ->
  Forall entry_wf (history (run_session steps w)).
Proof.
  revert w. induction steps as [ | [env a] steps IH]; intros w H.
  - exact H.
  - rewrite session_step. apply IH. rewrite press_history.
    apply Forall_app. split; [ | exact H].
    destruct (entry_of env a) as [e | ] eqn:He; cbn; [ | constructor].
    constructor; [ | constructor]. exact (entry_of_wf env a e He).
Qed.

(** *** More on the "tools/list" button *)

(** X6: a listing that arrives replaces the catalog wholesale: when the
    status is outside 400..599 and the body is an object whose [result] is
    an object, the catalog becomes the [tools] of that result (the empty
    list when there is none), whatever was cached before. *)
Theorem listing_replaces_catalog (env : Env) (w : World) (r : Response)
    (d result : dict) :
  network env (list_post env) = Return r ->
  ~ 400 <= status_code r < 600 ->
  json_body r = Return (JObj d) ->
  dict_get d "result" (JObj []) = JObj result ->
  tools (snd (tools_list_button env w)) = dict_get result "tools" (JArr []).
Proof.
  intros Hnet Hs Hb Hr. rewrite tools_list_button_run, Hnet. cbn [snd].
  unfold listing_of.
  destruct (is_http_error (status_code r)) eqn:E.
  - apply http_error_range in E. contradiction.
  - rewrite Hb, Hr. reflexivity.
Qed.

(** X7: a listing made of tool objects is rendered as a success with the
    number of tools, a heading, and one line per tool in the order of the
    listing, each with the [name] and [description] of the tool (null when
    the tool has none). *)
Theorem listing_is_rendered_in_order (env : Env) (w : World) (r : Response)
    (ts : list json) :
  network env (list_post env) = Return r ->
  listing_of r = Return (JArr ts) ->
  forallb isinstance_dict ts = true ->
  ui (snd (tools_list_button env w)) =
  ui w ++ [st_success_list (List.length ts); st_write_heading] ++ map tool_line ts.
Proof.
  intros Hnet Hl Hd. rewrite tools_list_button_run, Hnet, Hl. cbn [snd].
  unfold listing_widgets. cbn [sized elements]. rewrite Hd, app_nil_r.
  replace (leading_dicts ts) with ts; [reflexivity | ].
  clear - Hd. induction ts as [ | t ts IH]; [reflexivity | ].
  cbn in *. apply andb_true_iff in Hd as [Ht Hd]. rewrite Ht, <- IH by exact Hd.
  reflexivity.
Qed.

(** X8: a failure after line 151 is not rolled back: when the [tools] value
    of the response has no length, or one of its elements is not an object,
    the catalog has already been overwritten with that value, and the page
    ends with the error and the raw text of the response. *)
Theorem late_listing_failure_keeps_new_catalog (env : Env) (w : World)
    (r : Response) (v : json) :
  network env (list_post env) = Return r ->
  listing_of r = Return v ->
  sized v && forallb isinstance_dict (elements v) = false ->
  let w' := snd (tools_list_button env w) in
  tools w' = v /\
  exists (before : list widget) (e : exn),
    ui w' = ui w ++ before ++ [st_error_list e; st_write_text (text r)].
Proof.
  intros Hnet Hl Hv. cbn zeta. rewrite tools_list_button_run, Hnet, Hl. cbn [snd].
  split; [reflexivity | ].
  unfold listing_widgets. cbn [shown ui with_tools sent].
  destruct (sized v); cbn [andb] in Hv.
  - rewrite Hv.
    exists ([st_success_list (List.length (elements v)); st_write_heading]
            ++ map tool_line (leading_dicts (elements v))),
           (AttributeError "get").
    reflexivity.
  - exists [], (TypeError "len"). reflexivity.
Qed.

(** X9: what the listing shows when it fails before line 151: the error,
    then the raw text of the response, or the empty text when the transport
    raised and there is no response; an HTTP status in 400..599 is reported
    as the HTTP error of that status. *)
Theorem listing_error_report (env : Env) (w : World) :
  let w' := snd (tools_list_button env w) in
  match network env (list_post env) with
  | Raise e => ui w' = ui w ++ [st_error_list e; st_write_text EmptyString]
  | Return r =>
      (forall e, listing_of r = Raise e ->
                 ui w' = ui w ++ [st_error_list e; st_write_text (text r)]) /\
      (400 <= status_code r < 600 ->
       listing_of r = Raise (HTTPError (status_code r))) /\
      (~ 400 <= status_code r < 600 ->
       forall e, json_body r = Raise e -> listing_of r = Raise e)
  end.
Proof.
  cbn zeta. rewrite tools_list_button_run. cbn [snd].
  destruct (network env (list_post env)) as [r | e]; [ | reflexivity].
  split; [ | split].
  - intros e He. rewrite He. reflexivity.
  - intros Hs. apply http_error_range in Hs. unfold listing_of. rewrite Hs.
    reflexivity.
  - intros Hs e He. unfold listing_of.
    destruct (is_http_error (status_code r)) eqn:E.
    + apply http_error_range in E. contradiction.
    + rewrite He. reflexivity.
Qed.

(** *** More on a tool call *)

(** X10: a call that got a response is shown as a success, with the decoded
    body, exactly when the status is outside 400..599 and the body is an
    object holding a truthy [result]; in every other case it is shown as an
    HTTP error with the body. *)
Theorem success_shown_iff (env : Env) (tool_name : string) (args : json)
    (w : World) (r : Response) :
  network env (call_post env tool_name args) = Return r ->
  let w' := snd (call_mcp_tool env tool_name args w) in
  (ui w' = ui w ++ [st_success_call tool_name; st_json (body_of r)] <->
   ~ 400 <= status_code r < 600 /\ has_truthy_result (body_of r) = true) /\
  (ui w' = ui w ++ [st_error_http tool_name (status_code r); st_write (body_of r)] <->
   ~ (~ 400 <= status_code r < 600 /\ has_truthy_result (body_of r) = true)).
Proof.
  intros Hnet. cbn zeta.
  rewrite (call_mcp_tool_rendering env tool_name args w r Hnet).
  unfold rendering, classify. rewrite is_success_truthy_result. unfold ok.
  destruct (is_http_error (status_code r)) eqn:E.
  - apply http_error_range in E. cbn. split; split.
    + intros H. apply app_inv_head in H. discriminate.
    + intros [Hs _]. contradiction.
    + intros _ [Hs _]. contradiction.
    + reflexivity.
  - assert (Hs : ~ 400 <= status_code r < 600).
    { intros Hs. apply http_error_range in Hs. congruence. }
    cbn. destruct (has_truthy_result (body_of r)); split; split.
    + intros _. split; [exact Hs | reflexivity].
    + reflexivity.
    + intros H. apply app_inv_head in H. discriminate.
    + intros H. exfalso. apply H. split; [exact Hs | reflexivity].
    + intros H. apply app_inv_head in H. discriminate.
    + intros [_ H]. discriminate.
    + intros _ [_ H]. discriminate.
    + reflexivity.
Qed.

Lemma in_headers (env : Env) (k v : string) :
  In (k, v) (headers env) <->
  (k = "Content-Type" /\ v = "application/json") \/
  (k = "Authorization" /\ default_token env <> EmptyString /\
   v = ("Bearer " ++ default_token env)%string).
Proof.
  unfold headers. destruct (default_token env) as [ | c t] eqn:E; cbn.
  - split.
    + intros [[= <- <-] | []]. left. split; reflexivity.
    + intros [[-> ->] | (_ & H & _)]; [left; reflexivity | contradiction].
  - split.
    + intros [[= <- <-] | [[= <- <-] | []]].
      * left. split; reflexivity.
      * right. repeat split. discriminate.
    + intros [[-> ->] | (-> & _ & ->)]; [left | right; left]; reflexivity.
Qed.

(** X11: every request, of a tool call and of a listing alike, goes to the
    configured URL with the content type [application/json]; it carries an
    [Authorization] header exactly when a token was entered, and then the
    header is ["Bearer "] followed by the token as typed. A tool call waits
    60 seconds at most, a listing 20. *)
Theorem requests_carry_the_credential (env : Env) (tool_name : string)
    (args : json) (w : World) :
  let p := call_post env tool_name args in
  let q := list_post env in
  posts (snd (call_mcp_tool env tool_name args w)) = posts w ++ [p] /\
  posts (snd (tools_list_button env w)) = posts w ++ [q] /\
  post_url p = default_url env /\ post_url q = default_url env /\
  post_timeout p = 60 /\ post_timeout q = 20 /\
  post_headers p = post_headers q /\
  In ("Content-Type", "application/json") (post_headers p) /\
  (forall v, In ("Authorization", v) (post_headers p) <->
             default_token env <> EmptyString /\
             v = ("Bearer " ++ default_token env)%string).
Proof.
  cbn zeta.
  split; [ | split; [ | do 6 (split; [reflexivity || (cbn; left; reflexivity) | ]) ] ].
  - rewrite call_mcp_tool_run. cbn zeta. destruct (network env _); reflexivity.
  - apply tools_list_button_posts.
  - intros v. cbn [call_post post_headers]. rewrite in_headers. split.
    + intros [[H _] | (_ & Ht & Hv)]; [discriminate | split; assumption].
    + intros [Ht Hv]. right. repeat split; assumption.
Qed.

(** *** More on the "tools/call" button *)

(** X12: the "tools/call" button calls the selected tool with the parsed
    arguments when the text parses, and with the empty object when the text
    is blank; in both cases it does exactly what [call_mcp_tool] does. *)
Theorem tools_call_button_dispatches (env : Env) (selected args_text : string)
    (w : World) :
  (strip args_text = EmptyString ->
   tools_call_button env selected args_text w =
   call_mcp_tool env selected (JObj []) w) /\
  (strip args_text <> EmptyString ->
   forall v, json_loads env args_text = Return v ->
             tools_call_button env selected args_text w =
             call_mcp_tool env selected v w).
Proof.
  change (tools_call_button env selected args_text w)
    with (press env (CallTool selected args_text) w).
  split.
  - intros Hs.
    rewrite (press_calls env (CallTool selected args_text) selected (JObj []) w)
      by (cbn; rewrite Hs; reflexivity).
    rewrite <- call_alone. reflexivity.
  - intros Hs v Hv.
    rewrite (press_calls env (CallTool selected args_text) selected v w).
    + rewrite <- call_alone. reflexivity.
    + cbn. destruct (strip args_text); [contradiction | ]. cbn. rewrite Hv.
      reflexivity.
Qed.

(** *** More on the synthesizer *)

Lemma synthesize_loop_outcome (items : dict) :
  forall (acc : dict) (w : World),
    if forallb isinstance_dict (map snd items)
    then exists d, synthesize_loop items acc w = (Return d, w)
    else synthesize_loop items acc w = (Raise (AttributeError "get"), w).
Proof.
  induction items as [ | [k v] items IH]; intros acc w.
  - cbn. eexists. reflexivity.
  - cbn [map snd forallb synthesize_loop].
    destruct v as [ | b | n | x | s | its | d]; cbn [isinstance_dict andb];
      try reflexivity.
    unfold bind. rewrite placeholder_of_dict. apply IH.
Qed.

(** X13: [synthesize] raises exactly when a declaration cannot be read (the
    schema, its [properties] or one property declaration is not an object),
    and then with an [AttributeError]; otherwise it returns a mapping. In
    both cases it leaves the session as it was. *)
Theorem synthesize_raises_iff_unreadable (inputSchema : json) (w : World) :
  if schema_readable inputSchema
  then exists d, synthesize inputSchema w = (Return d, w)
  else exists msg, synthesize inputSchema w = (Raise (AttributeError msg), w).
Proof.
  unfold schema_readable, synthesize, bind.
  destruct inputSchema as [ | b | n | x | s | its | d];
    try (eexists; reflexivity).
  cbn [py_get ret].
  destruct (dict_get d "properties" (JObj [])) as [ | b | n | x | s | its | props];
    try (eexists; reflexivity).
  cbn [py_items ret].
  pose proof (synthesize_loop_outcome props [] w) as H.
  destruct (forallb isinstance_dict (map snd props)).
  - exact H.
  - eexists. exact H.
Qed.

(** X14: a tool without [inputSchema], and a schema without [properties],
    give the empty mapping; a tool whose [inputSchema] is present but null
    is not treated as missing: reading it raises. *)
Theorem missing_schema_gives_no_arguments (t d : dict) (w : World) :
  (dict_lookup t "inputSchema" = None ->
   default_args_of (JObj t) w = (Return [], w)) /\
  (dict_lookup t "inputSchema" = Some (JObj d) ->
   dict_lookup d "properties" = None ->
   default_args_of (JObj t) w = (Return [], w)) /\
  (dict_lookup t "inputSchema" = Some JNull ->
   default_args_of (JObj t) w = (Raise (AttributeError "get"), w)).
Proof.
  unfold default_args_of, synthesize, bind, py_get, ret, dict_get.
  repeat split.
  - intros H. rewrite H. reflexivity.
  - intros H Hd. rewrite H, Hd. reflexivity.
  - intros H. rewrite H. reflexivity.
Qed.

(** *** The preset panel *)

Lemma call_posts (env : Env) (tool_name : string) (args : json) (w : World) :
  posts (snd (call_mcp_tool env tool_name args w)) =
  posts w ++ [call_post env tool_name args].
Proof.
  rewrite call_mcp_tool_run. cbn zeta. destruct (network env _); reflexivity.
Qed.

Lemma in_posts_after_call (env : Env) (tool_name : string) (args : json)
    (w : World) (p : PostCall) :
  In p (posts (snd (call_mcp_tool env tool_name args w))) ->
  In p (posts w) \/ p = call_post env tool_name args.
Proof.
  rewrite call_posts. intros H. apply in_app_or in H as [H | [H | []]].
  - left. exact H.
  - right. symmetry. exact H.
Qed.

(** X15: the worker button never asks for a real deployment that was not
    confirmed: any request it sends is [createWorkerFromCode] with a name
    and a code that are not empty and with [dryRun] or [confirm] set; with
    both unset it sends nothing and shows the confirmation error. *)
Theorem worker_never_deploys_unconfirmed (env : Env)
    (worker_name worker_code : string) (dry_run confirm_deploy : bool)
    (w : World) :
  let run := worker_button env worker_name worker_code dry_run confirm_deploy w in
  (forall p, In p (posts (snd run)) ->
     In p (posts w) \/
     (p = call_post env "createWorkerFromCode"
            (worker_params worker_name worker_code dry_run confirm_deploy) /\
      (dry_run = true \/ confirm_deploy = true) /\
      worker_name <> EmptyString /\ worker_code <> EmptyString)) /\
  (dry_run = false -> confirm_deploy = false ->
   worker_name <> EmptyString -> worker_code <> EmptyString ->
   run = (Return (Some st_error_confirm), w)).
Proof.
  cbn zeta. unfold worker_button. split.
  - intros p.
    destruct worker_name as [ | c1 n]; [cbn; auto | ].
    destruct worker_code as [ | c2 c]; [cbn; auto | ].
    cbn [str_truthy andb].
    destruct dry_run, confirm_deploy; cbn [negb andb];
      try (rewrite call_then_ret; cbn [snd]; intros H;
           apply in_posts_after_call in H as [H | H]; [left; exact H | right];
           repeat split; auto; discriminate).
    cbn. auto.
  - intros -> -> Hn Hc.
    destruct worker_name; [contradiction | ].
    destruct worker_code; [contradiction | ]. reflexivity.
Qed.

(** X16: the key-value and chat presets send nothing without their inputs:
    [getKVFlag] is only sent with a key that is not empty, [setKVFlag] only
    with a key and a value that are not empty, [aiChat] only with a prompt
    that is not empty, and each is sent with exactly the values typed. *)
Theorem presets_need_their_inputs (env : Env) (k v prompt selected custom : string)
    (w : World) (p : PostCall) :
  (In p (posts (snd (get_kv_button env k w))) ->
   In p (posts w) \/
   (k <> EmptyString /\ p = call_post env "getKVFlag" (JObj [("key", JStr k)]))) /\
  (In p (posts (snd (set_kv_button env k v w))) ->
   In p (posts w) \/
   (k <> EmptyString /\ v <> EmptyString /\
    p = call_post env "setKVFlag" (JObj [("key", JStr k); ("value", JStr v)]))) /\
  (In p (posts (snd (ai_button env prompt selected custom w))) ->
   In p (posts w) \/
   (prompt <> EmptyString /\
    p = call_post env "aiChat"
          (JObj (ai_args prompt (model_to_use selected custom))))).
Proof.
  unfold get_kv_button, set_kv_button, ai_button. repeat split.
  - destruct k; cbn [str_truthy]; [cbn; auto | ].
    rewrite call_then_ret. cbn [snd]. intros H.
    apply in_posts_after_call in H as [H | H]; [left; exact H | right].
    split; [discriminate | exact H].
  - destruct k; cbn [str_truthy andb]; [cbn; auto | ].
    destruct v; cbn [str_truthy]; [cbn; auto | ].
    rewrite call_then_ret. cbn [snd]. intros H.
    apply in_posts_after_call in H as [H | H]; [left; exact H | right].
    repeat split; [discriminate | discriminate | exact H].
  - destruct prompt; cbn [str_truthy]; [cbn; auto | ].
    rewrite call_then_ret. cbn [snd]. intros H.
    apply in_posts_after_call in H as [H | H]; [left; exact H | right].
    split; [discriminate | exact H].
Qed.

Lemma model_to_use_custom (selected custom : string) :
  strip custom <> EmptyString ->
  model_to_use selected custom = Some (strip custom).
Proof.
  intros H. unfold model_to_use.
  destruct custom as [ | c s]; [exfalso; apply H; reflexivity | ].
  cbn [str_truthy andb].
  destruct (strip (String c s)); [contradiction | reflexivity].
Qed.

Lemma model_to_use_preset (selected custom : string) :
  strip custom = EmptyString ->
  model_to_use selected custom =
  if String.eqb selected "(use custom below)" then None else Some selected.
Proof.
  intros H. unfold model_to_use. rewrite H. cbn [str_truthy].
  rewrite andb_false_r. reflexivity.
Qed.

(** X17: the model sent with [aiChat]. The prompt is always sent as typed.
    A custom model that is not blank is sent stripped of surrounding
    whitespace, whatever preset is selected; with a blank custom model the
    selected preset is sent, and no [model] at all when the selection is
    the placeholder "(use custom below)". *)
Theorem ai_model_choice (prompt selected custom : string) :
  In selected model_options ->
  let args := ai_args prompt (model_to_use selected custom) in
  dict_lookup args "prompt" = Some (JStr prompt) /\
  (strip custom <> EmptyString ->
   args = [("prompt", JStr prompt); ("model", JStr (strip custom))]) /\
  (strip custom = EmptyString -> selected = "(use custom below)" ->
   args = [("prompt", JStr prompt)]) /\
  (strip custom = EmptyString -> selected <> "(use custom below)" ->
   args = [("prompt", JStr prompt); ("model", JStr selected)] /\
   In selected preset_models).
Proof.
  intros Hin. cbn zeta. split; [ | split; [ | split]].
  - unfold ai_args. destruct (model_to_use selected custom) as [m | ];
      [destruct (str_truthy m) | ]; reflexivity.
  - intros Hc. rewrite model_to_use_custom by exact Hc. unfold ai_args.
    destruct (strip custom); [contradiction | reflexivity].
  - intros Hc ->. rewrite model_to_use_preset by exact Hc. reflexivity.
  - intros Hc Hs. rewrite model_to_use_preset by exact Hc.
    destruct Hin as [<- | Hin]; [contradiction | ].
    split; [ | exact Hin].
    unfold preset_models in Hin. cbn in Hin.
    decompose [or] Hin; subst; try reflexivity; contradiction.
Qed.

(** *** The history panel *)

Lemma history_panel_cons (e : HistoryEntry) (h : list HistoryEntry) :
  history_panel (e :: h) = expander_of e :: map expander_of (firstn 19 h).
Proof. reflexivity. Qed.

(** X18: after a call that got a response, the history panel opens with the
    expander of that call, followed by the 19 newest earlier entries; it
    never shows more than 20 expanders, while the stored history keeps every
    entry. The hint is shown exactly when the history is empty. *)
Theorem panel_shows_newest_first (env : Env) (tool_name : string) (args : json)
    (w : World) (r : Response) :
  network env (call_post env tool_name args) = Return r ->
  let w' := snd (call_mcp_tool env tool_name args w) in
  history_panel (history w') =
    st_expander (now_utc_iso env) tool_name (status_code r)
                (call_payload env tool_name args) (body_of r)
    :: map expander_of (firstn 19 (history w)) /\
  List.length (history_panel (history w')) =
    Nat.min 20 (S (List.length (history w))) /\
  List.length (history w') = S (List.length (history w)) /\
  (forall h, history_panel h = [st_info_no_history] <-> h = []).
Proof.
  intros Hnet. cbn zeta. rewrite call_mcp_tool_run. cbn zeta. rewrite Hnet.
  cbn [snd history]. rewrite history_panel_cons.
  split; [reflexivity | split; [ | split]].
  - cbn [List.length]. rewrite length_map, length_firstn. lia.
  - reflexivity.
  - intros h. split.
    + destruct h as [ | e h]; [reflexivity | ].
      rewrite history_panel_cons. discriminate.
    + intros ->. reflexivity.
Qed.

(** *** The properties above on concrete inputs *)

Lemma catalog_changes_only_by_listing_witness :
  tools (run_session Cases.steps (Examples.with_catalog Examples.three_tools)) =
  Examples.three_tools.
Proof.
  apply (catalog_changes_only_by_listing Cases.steps
           (Examples.with_catalog Examples.three_tools)).
  reflexivity.
Defined.

Lemma history_entries_name_their_tool_witness :
  Forall entry_wf (history (run_session Cases.steps initial_world)) /\
  map entry_tool (history (run_session Cases.steps initial_world)) =
  ["getKVFlag"; "getSystemPrompt"].
Proof.
  split; [ | reflexivity].
  apply (history_entries_name_their_tool Cases.steps initial_world).
  cbn. constructor.
Defined.

Lemma listing_replaces_catalog_witness :
  tools (snd (tools_list_button (Cases.listing_env Cases.two_tools)
                (Examples.with_catalog Examples.three_tools))) =
  Cases.two_tools.
Proof.
  apply (listing_replaces_catalog (Cases.listing_env Cases.two_tools)
           (Examples.with_catalog Examples.three_tools)
           (mkResponse 200 "ok" (Return (Cases.listing_body Cases.two_tools)))
           [("jsonrpc", JStr "2.0"); ("id", JInt 1);
            ("result", JObj [("tools", Cases.two_tools)])]
           [("tools", Cases.two_tools)]).
  - reflexivity.
  - cbn. lia.
  - reflexivity.
  - reflexivity.
Defined.

Lemma listing_is_rendered_in_order_witness :
  ui (snd (tools_list_button (Cases.listing_env Cases.two_tools) initial_world)) =
  [st_success_list 2; st_write_heading;
   st_markdown_tool (JStr "echo") (JStr "a tool");
   st_markdown_tool (JStr "aiChat") (JStr "a tool")].
Proof.
  apply (listing_is_rendered_in_order (Cases.listing_env Cases.two_tools)
           initial_world
           (mkResponse 200 "ok" (Return (Cases.listing_body Cases.two_tools)))
           [Examples.tool "echo"; Examples.tool "aiChat"]); reflexivity.
Defined.

Lemma late_listing_failure_keeps_new_catalog_witness :
  tools (snd (tools_list_button (Cases.listing_env (JInt 5))
                (Examples.with_catalog Examples.three_tools))) = JInt 5.
Proof.
  apply (late_listing_failure_keeps_new_catalog (Cases.listing_env (JInt 5))
           (Examples.with_catalog Examples.three_tools)
           (mkResponse 200 "ok" (Return (Cases.listing_body (JInt 5))))
           (JInt 5)); reflexivity.
Defined.

Lemma success_shown_iff_witness :
  ui (snd (call_mcp_tool Cases.up "getSystemPrompt" (JObj []) initial_world)) =
  [st_success_call "getSystemPrompt"; st_json Examples.result_body].
Proof.
  apply (success_shown_iff Cases.up "getSystemPrompt" (JObj []) initial_world
           (mkResponse 200 "ok" (Return Examples.result_body))).
  - reflexivity.
  - split; [cbn; lia | reflexivity].
Defined.

Lemma ai_model_choice_witness :
  ai_args "hello" (model_to_use "openai/gpt-4o" "  my/model ") =
  [("prompt", JStr "hello"); ("model", JStr "my/model")].
Proof.
  apply (ai_model_choice "hello" "openai/gpt-4o" "  my/model ").
  - cbn. tauto.
  - cbn. discriminate.
Defined.

Lemma panel_shows_newest_first_witness :
  history_panel
    (history (snd (call_mcp_tool Cases.up "getSystemPrompt" (JObj [])
                     initial_world))) =
  [st_expander "2025-06-15T15:06:40+00:00" "getSystemPrompt" 200
     (call_payload Cases.up "getSystemPrompt" (JObj [])) Examples.result_body].
Proof.
  apply (panel_shows_newest_first Cases.up "getSystemPrompt" (JObj [])
           initial_world (mkResponse 200 "ok" (Return Examples.result_body))).
  reflexivity.
Defined.

(** *** Ids of the requests of a session *)

Lemma request_of_cases (env : Env) (a : action) :
  request_of env a =
  match call_of env a with
  | Some (tool_name, args) => Some (call_post env tool_name args)
  | None => if is_listing a then Some (list_post env) else None
  end.
Proof. destruct a; reflexivity. Qed.

Lemma run_session_posts (steps : list (Env * action)) :
  forall w, posts (run_session steps w) = posts w ++ requests_of steps.
Proof.
  induction steps as [ | [env a] steps IH]; intros w.
  - cbn. rewrite app_nil_r. reflexivity.
  - rewrite session_step, IH, press_posts. unfold requests_of.
    cbn [flat_map fst snd]. rewrite <- app_assoc. reflexivity.
Qed.

(** The [tools/call] requests of a session carry the clock readings of
    their presses as ids. *)
Lemma call_ids_of_requests (steps : list (Env * action)) :
  map (fun p => request_id (post_json p))
      (filter (fun p => is_tools_call (post_json p)) (requests_of steps)) =
  map (fun x => Some (JFloat x)) (call_clocks steps).
Proof.
  induction steps as [ | [env a] steps IH]; [reflexivity | ].
  unfold requests_of, call_clocks in *. cbn [flat_map fst snd].
  rewrite filter_app, !map_app, IH. f_equal.
  rewrite request_of_cases.
  destruct (call_of env a) as [[tool_name args] | ]; [reflexivity | ].
  destruct (is_listing a); reflexivity.
Qed.

Lemma ids_differ_map (xs : list spec_float) :
  ForallOrdPairs (fun x y => float_eq x y = false) xs ->
  ForallOrdPairs (fun a b => ids_differ a b = true)
                 (map (fun x => Some (JFloat x)) xs).
Proof.
  induction 1 as [ | x xs Hx _ IH]; cbn [map]; constructor.
  - apply Forall_map. revert Hx. apply Forall_impl.
    intros y Hy. cbn. rewrite Hy. reflexivity.
  - exact IH.
Qed.

(** C9, as the code has it: the id of a [tools/call] request is the clock
    reading taken when it is dispatched, and the id of a [tools/list]
    request is always 1. So, over any session, the [tools/call] requests
    carry the clock readings of their presses, in order, and when these
    readings are binary64 floats that differ pairwise, the ids of the
    [tools/call] requests sent differ pairwise. *)
Theorem ids_of_dispatches (steps : list (Env * action)) (w : World) :
  call_ids (run_session steps w) =
    call_ids w ++ map (fun x => Some (JFloat x)) (call_clocks steps) /\
  (Forall (fun x => is_binary64 x = true) (call_clocks steps) ->
   ForallOrdPairs (fun x y => float_eq x y = false) (call_clocks steps) ->
   exists ids,
     call_ids (run_session steps w) = call_ids w ++ ids /\
     List.length ids = List.length (call_clocks steps) /\
     ForallOrdPairs (fun a b => ids_differ a b = true) ids) /\
  (forall env w0,
     sent_ids (snd (tools_list_button env w0)) = sent_ids w0 ++ [Some (JInt 1)]).
Proof.
  assert (Hids : call_ids (run_session steps w) =
                 call_ids w ++ map (fun x => Some (JFloat x)) (call_clocks steps)).
  { unfold call_ids. rewrite run_session_posts, filter_app, map_app.
    rewrite call_ids_of_requests. reflexivity. }
  split; [exact Hids | split].
  - intros _ Hd. exists (map (fun x => Some (JFloat x)) (call_clocks steps)).
    split; [exact Hids | split].
    + apply length_map.
    + apply ids_differ_map. exact Hd.
  - intros env w0. unfold sent_ids.
    rewrite tools_list_button_posts, map_app. reflexivity.
Qed.

Lemma ids_of_dispatches_witness :
  exists ids,
    call_ids (run_session Clocks.steps initial_world) = ids /\
    List.length ids = 2%nat /\
    ForallOrdPairs (fun a b => ids_differ a b = true) ids.
Proof.
  destruct (ids_of_dispatches Clocks.steps initial_world) as (_ & H & _).
  destruct H as (ids & Hids & Hlen & Hd).
  - repeat constructor.
  - repeat constructor.
  - exists ids. split; [exact Hids | split; [exact Hlen | exact Hd]].
Defined.

(** C9 fails as stated: two [tools/list] dispatches in one session carry
    the same id, and so do two [tools/call] dispatches for which the wall
    clock gives the same reading. *)
Lemma dispatches_share_their_id :
  let env := Examples.respond 200 "ok" (Return Examples.result_body) in
  let w1 := snd (tools_list_button env initial_world) in
  let w2 := snd (tools_list_button env w1) in
  let v1 := snd (call_mcp_tool (Clocks.at_clock Clocks.t1) "getSystemPrompt"
                   (JObj []) initial_world) in
  let v2 := snd (call_mcp_tool (Clocks.at_clock Clocks.t1) "listCronTriggers"
                   (JObj []) v1) in
  sent_ids w2 = [Some (JInt 1); Some (JInt 1)] /\
  sent_ids v2 = [Some (JFloat Clocks.t1); Some (JFloat Clocks.t1)] /\
  is_binary64 Clocks.t1 = true /\
  float_eq Clocks.t1 Clocks.t1 = true.
Proof. cbn zeta. repeat split. Qed.
